(** * Crypto Price Tracker API: the store, the CRUD layer and the endpoints

    A shallow embedding of [models.py], [schemas.py], [crud.py], the
    endpoints of [main.py] and the history request of [dashboard.py].  The
    relational store is a record of tables, each
    table a list of rows in insertion order.  Code that writes to the store is
    a function from the store to an outcome and the store that is left behind;
    an outcome is a returned value or a raised exception. *)

From Stdlib Require Import ZArith String List.
From Stdlib Require QArith.
From stdpp Require Import base option list strings gmap sorting.

Local Open Scope Z_scope.

(** ** Values *)

(** A [Float] column and a JSON number.  Prices are stored and copied, the
    code performs no arithmetic on them. *)
Abbreviation price_t := QArith_base.Q.

(** A [DateTime] column: an instant, in microseconds since the epoch. *)
Abbreviation datetime := Z.

(** ** models.py *)

Module User.
Record t := mk {
  id : Z;
  username : string;
  email : string;
  hashed_password : string;
  created_at : datetime
}.
End User.

Module Coin.
Record t := mk {
  id : Z;
  name : string;
  symbol : string
}.
End Coin.

Module PriceHistory.
Record t := mk {
  id : Z;
  coin_id : Z;
  price : price_t;
  volume_24h : option price_t;
  change_24h : option price_t;
  market_cap : option price_t;
  timestamp : datetime
}.
End PriceHistory.

(** The association table [user_coins]: two foreign keys, no primary key and
    no uniqueness constraint. *)
Module user_coins.
Record t := mk {
  user_id : Z;
  coin_id : Z
}.

#[export] Instance eq_dec : EqDecision t.
Proof. solve_decision. Defined.
End user_coins.

(** The store behind a [Session]. *)
Record DB := mkDB {
  users : list User.t;
  coins : list Coin.t;
  price_history : list PriceHistory.t;
  watch : list user_coins.t
}.


(** ** schemas.py *)

Module UserCreate.
Record t := mk {
  username : string;
  email : string;
  password : string
}.
End UserCreate.

Module CoinCreate.
Record t := mk {
  name : string;
  symbol : string
}.
End CoinCreate.

(** ** auth.py

    The two password functions that [crud.py] imports from [auth.py], as an
    interface: the results below hold for every implementation of it. *)
Class Auth := {
  get_password_hash : string → string;
  verify_password : string → string → bool
}.

(** The token side of [auth.py], as far as [login_for_access_token] uses it:
    the configured lifetime in minutes and the signing of a token for a
    subject and a lifetime. *)
Class Tokens := {
  ACCESS_TOKEN_EXPIRE_MINUTES : Z;
  create_access_token : string → Z → string
}.

(** ** Exceptions and outcomes *)

Inductive exn :=
  | HTTPException (status_code : Z) (detail : string)
  | ValueError (msg : string)
  | IntegrityError (msg : string).

Inductive outcome (A : Type) :=
  | Return (a : A)
  | Raise (e : exn).
Arguments Return {A} a.
Arguments Raise {A} e.

(** Code that works on a session. *)
Definition session (A : Type) : Type := DB → outcome A * DB.

Definition ret {A} (a : A) : session A := λ db, (Return a, db).
Definition raise {A} (e : exn) : session A := λ db, (Raise e, db).
Definition bind {A B} (m : session A) (k : A → session B) : session B :=
  λ db, match m db with
        | (Return a, db') => k a db'
        | (Raise e, db') => (Raise e, db')
        end.

Notation "'call' x <- m 'in' k" := (bind m (λ x, k))
  (at level 10, x name, m at level 100, k at level 200, only parsing).

(** ** The storage engine *)

(** An integer primary key left out of an insert is assigned by the engine:
    one more than the largest key of the table. *)
Definition next_id (ids : list Z) : Z := 1 + foldr Z.max 0 ids.

(** [Query.first()] on a filter: the first row of the table that matches. *)
Definition first {A} (P : A → bool) (rows : list A) : option A :=
  List.find P rows.

(** [order_by(PriceHistory.timestamp.desc())]: rows by decreasing timestamp.
    Rows with equal timestamps keep the order of the table. *)
Fixpoint insert_desc (p : PriceHistory.t) (l : list PriceHistory.t)
  : list PriceHistory.t :=
  match l with
  | [] => [p]
  | q :: l' =>
      if PriceHistory.timestamp q <=? PriceHistory.timestamp p
      then p :: q :: l'
      else q :: insert_desc p l'
  end.

Fixpoint order_by_timestamp_desc (l : list PriceHistory.t)
  : list PriceHistory.t :=
  match l with
  | [] => []
  | p :: l' => insert_desc p (order_by_timestamp_desc l')
  end.

(** The observations of one coin: [filter(PriceHistory.coin_id == coin.id)]. *)
Definition prices_of (db : DB) (cid : Z) : list PriceHistory.t :=
  List.filter (λ p, PriceHistory.coin_id p =? cid) (price_history db).

(** The collection [user.coins] of [relationship("Coin", secondary=user_coins)]
    as the session loads it: the coins joined to the user's rows of the
    association table. *)
Definition load_coins (db : DB) (uid : Z) : list Coin.t :=
  omap (λ row : user_coins.t,
          if user_coins.user_id row =? uid
          then first (λ c, Coin.id c =? user_coins.coin_id row) (coins db)
          else None)
       (watch db).

(** Membership of a mapped object in a loaded collection.  Within one session
    a row has one object, so the comparison is by primary key. *)
Definition coin_in (c : Coin.t) (l : list Coin.t) : bool :=
  existsb (λ c', Coin.id c' =? Coin.id c) l.

(** [list.remove(x)] on a loaded collection: the position of the first
    occurrence, [None] when there is none (where Python raises
    [ValueError]). *)
Fixpoint list_index (c : Coin.t) (l : list Coin.t) : option nat :=
  match l with
  | [] => None
  | c' :: l' =>
      if Coin.id c' =? Coin.id c then Some 0%nat
      else S <$> list_index c l'
  end.

(** The row of a pair leaves the association table: its first occurrence. *)
Fixpoint delete_row (row : user_coins.t) (rows : list user_coins.t)
  : list user_coins.t :=
  match rows with
  | [] => []
  | row' :: rows' =>
      if (user_coins.user_id row' =? user_coins.user_id row)
         && (user_coins.coin_id row' =? user_coins.coin_id row)
      then rows'
      else row' :: delete_row row rows'
  end.

(** [db.add(row); db.commit()] on [users]: the engine assigns the key and
    enforces the two [unique=True] columns.  [now] is the reading of
    [datetime.utcnow] that fills [created_at].  The text of an integrity error
    is the engine's; the model keeps the name of the constraint. *)
Definition insert_user (now : datetime) (username email hashed : string)
  : session User.t :=
  λ db,
    if existsb (λ u, String.eqb (User.username u) username) (users db)
    then (Raise (IntegrityError "UNIQUE constraint failed: users.username"), db)
    else if existsb (λ u, String.eqb (User.email u) email) (users db)
    then (Raise (IntegrityError "UNIQUE constraint failed: users.email"), db)
    else
      let u := User.mk (next_id (User.id <$> users db))
                       username email hashed now in
      (Return u,
       mkDB (users db ++ [u]) (coins db) (price_history db) (watch db)).

(** The same on [coins]. *)
Definition insert_coin (name symbol : string) : session Coin.t :=
  λ db,
    if existsb (λ c, String.eqb (Coin.name c) name) (coins db)
    then (Raise (IntegrityError "UNIQUE constraint failed: coins.name"), db)
    else if existsb (λ c, String.eqb (Coin.symbol c) symbol) (coins db)
    then (Raise (IntegrityError "UNIQUE constraint failed: coins.symbol"), db)
    else
      let c := Coin.mk (next_id (Coin.id <$> coins db)) name symbol in
      (Return c,
       mkDB (users db) (coins db ++ [c]) (price_history db) (watch db)).

(** The same on [price_history], which has no unique column; the optional
    columns are left null and [timestamp] defaults to [now], the reading of
    [datetime.utcnow] at the insert. *)
Definition insert_price (now : datetime) (coin_id : Z) (price : price_t)
  : session PriceHistory.t :=
  λ db,
    let p := PriceHistory.mk (next_id (PriceHistory.id <$> price_history db))
                             coin_id price None None None now in
    (Return p,
     mkDB (users db) (coins db) (price_history db ++ [p]) (watch db)).

(** ** crud.py *)

Module crud.

(** What [add_coin_to_user] and [remove_coin_from_user] return on success:
    the dictionary [{"user_id": .., "coin_id": ..}]. *)
Record link := mk_link { link_user_id : Z; link_coin_id : Z }.

(** One entry of [get_latest_prices]. *)
Record latest := mk_latest {
  latest_name : string;
  latest_symbol : string;
  latest_price : price_t;
  latest_timestamp : datetime
}.

Definition get_user_by_username (db : DB) (username : string)
  : option User.t :=
  first (λ u, String.eqb (User.username u) username) (users db).

Definition get_user_by_email (db : DB) (email : string) : option User.t :=
  first (λ u, String.eqb (User.email u) email) (users db).

Definition create_user {auth : Auth} (now : datetime) (user : UserCreate.t)
  : session User.t :=
  let hashed_password := get_password_hash (UserCreate.password user) in
  insert_user now (UserCreate.username user) (UserCreate.email user)
              hashed_password.

(** [False] is [None]. *)
Definition authenticate_user {auth : Auth} (db : DB) (username password : string)
  : option User.t :=
  match get_user_by_username db username with
  | None => None
  | Some user =>
      if negb (verify_password password (User.hashed_password user))
      then None
      else Some user
  end.

(** [user.coins.append(coin)] and [db.commit()]: the collection grows by
    one member and the association table by the row of that member.  There
    is no test for membership before the append and no constraint on the
    table. *)
Definition add_coin_to_user (user_id coin_id : Z) : session (option link) :=
  λ db,
    let user := first (λ u, User.id u =? user_id) (users db) in
    let coin := first (λ c, Coin.id c =? coin_id) (coins db) in
    match user, coin with
    | Some user, Some coin =>
        (Return (Some (mk_link user_id coin_id)),
         mkDB (users db) (coins db) (price_history db)
              (watch db ++ [user_coins.mk (User.id user) (Coin.id coin)]))
    | _, _ => (Return None, db)
    end.

(** [user.coins.remove(coin)] and [db.commit()]: [remove] raises when the
    coin is not a member, before anything is written. *)
Definition remove_coin_from_user (user_id coin_id : Z)
  : session (option link) :=
  λ db,
    let user := first (λ u, User.id u =? user_id) (users db) in
    let coin := first (λ c, Coin.id c =? coin_id) (coins db) in
    match user, coin with
    | Some user, Some coin =>
        match list_index coin (load_coins db (User.id user)) with
        | None => (Raise (ValueError "list.remove(x): x not in list"), db)
        | Some _ =>
            (Return (Some (mk_link user_id coin_id)),
             mkDB (users db) (coins db) (price_history db)
                  (delete_row (user_coins.mk (User.id user) (Coin.id coin))
                              (watch db)))
        end
    | _, _ => (Return None, db)
    end.

Definition get_user_coins (db : DB) (user_id : Z) : list Coin.t :=
  match first (λ u, User.id u =? user_id) (users db) with
  | None => []
  | Some user => load_coins db (User.id user)
  end.

Definition get_coin_by_name (db : DB) (name : string) : option Coin.t :=
  first (λ c, String.eqb (Coin.name c) name) (coins db).

Definition get_all_coins (db : DB) : list Coin.t := coins db.

Definition create_coin (coin : CoinCreate.t) : session Coin.t :=
  insert_coin (CoinCreate.name coin) (CoinCreate.symbol coin).

Definition add_price (now : datetime) (coin : Coin.t) (price : price_t)
  : session PriceHistory.t :=
  insert_price now (Coin.id coin) price.

(** The query of the loop of [get_latest_prices]: the first observation of
    the coin by decreasing timestamp. *)
Definition latest_of (db : DB) (coin : Coin.t) : option PriceHistory.t :=
  head (order_by_timestamp_desc (prices_of db (Coin.id coin))).

Definition get_latest_prices (db : DB) : list latest :=
  omap (λ coin,
          match latest_of db coin with
          | None => None
          | Some latest =>
              Some (mk_latest (Coin.name coin) (Coin.symbol coin)
                              (PriceHistory.price latest)
                              (PriceHistory.timestamp latest))
          end)
       (coins db).

Definition get_price_history (db : DB) (coin_name : string)
  : list PriceHistory.t :=
  match get_coin_by_name db coin_name with
  | None => []
  | Some coin => order_by_timestamp_desc (prices_of db (Coin.id coin))
  end.

Definition get_user_price_history (db : DB) (user_id : Z)
                                  (coin_name : string)
  : list PriceHistory.t :=
  match first (λ u, User.id u =? user_id) (users db) with
  | None => []
  | Some user =>
      match get_coin_by_name db coin_name with
      | None => []
      | Some coin =>
          if negb (coin_in coin (load_coins db (User.id user))) then []
          else order_by_timestamp_desc (prices_of db (Coin.id coin))
      end
  end.

End crud.

(** ** main.py *)

(** One dictionary of the configuration list [COINS]; [id] is the key of the
    coin at the price feed. *)
Module Entry.
Record t := mk {
  name : string;
  symbol : string;
  id : string
}.
End Entry.

(** What the price feed answers: a status, the raw text, and the parsed body,
    a mapping from feed identifier to a mapping from currency to price. *)
Module Response.
Record t := mk {
  status_code : Z;
  text : string;
  json : gmap string (gmap string price_t)
}.
End Response.

(** [str(e)] *)
Definition str (e : exn) : string :=
  match e with
  | HTTPException _ detail => detail
  | ValueError msg => msg
  | IntegrityError msg => msg
  end.

Module main.

Definition COINS : list Entry.t := [
  Entry.mk "Bitcoin" "btc" "bitcoin";
  Entry.mk "Ethereum" "eth" "ethereum";
  Entry.mk "Cardano" "ada" "cardano";
  Entry.mk "Solana" "sol" "solana";
  Entry.mk "Binance Coin" "bnb" "binancecoin";
  Entry.mk "XRP" "xrp" "ripple";
  Entry.mk "Polkadot" "dot" "polkadot";
  Entry.mk "Dogecoin" "doge" "dogecoin";
  Entry.mk "Avalanche" "avax" "avalanche-2";
  Entry.mk "Chainlink" "link" "chainlink"
].

(** [{"status": .., "message": ..}] *)
Record message := mk_message { status : string; message_text : string }.

(** One entry of the data of [update_prices].  The timestamp is kept as the
    instant; the source renders it with [isoformat]. *)
Record quote := mk_quote {
  quote_name : string;
  quote_symbol : string;
  quote_price : price_t;
  quote_timestamp : datetime
}.

(** [{"status": .., "data": .., "count": ..}] *)
Record update_result := mk_update_result {
  update_status : string;
  data : list quote;
  count : Z
}.

Definition register_user {auth : Auth} (now : datetime) (user : UserCreate.t)
  : session User.t :=
  λ db,
    match crud.get_user_by_username db (UserCreate.username user) with
    | Some _ =>
        (Raise (HTTPException 400 "Username already registered"), db)
    | None =>
        match crud.get_user_by_email db (UserCreate.email user) with
        | Some _ =>
            (Raise (HTTPException 400 "Email already registered"), db)
        | None => crud.create_user now user db
        end
    end.

(** [current_user] is the user that [auth.get_current_user] resolved from
    the bearer token. *)
Definition add_coin_to_user (coin_id : Z) (current_user : User.t)
  : session message :=
  call result <- crud.add_coin_to_user (User.id current_user) coin_id in
  match result with
  | None => raise (HTTPException 404 "Coin not found")
  | Some _ =>
      ret (mk_message "success" "Coin added to user's tracking list")
  end.

Definition remove_coin_from_user (coin_id : Z) (current_user : User.t)
  : session message :=
  call result <- crud.remove_coin_from_user (User.id current_user) coin_id in
  match result with
  | None =>
      raise (HTTPException 404
               "Coin not found or not in user's tracking list")
  | Some _ =>
      ret (mk_message "success" "Coin removed from user's tracking list")
  end.

(** The loop [for coin in COINS] of [update_prices].  [clock k] is the time
    at which the entry at position [k] of the list is stored. *)
Fixpoint process (clock : nat → datetime)
                 (prices : gmap string (gmap string price_t))
                 (k : nat) (todo : list Entry.t) (results : list quote)
  : session (list quote) :=
  match todo with
  | [] => ret results
  | coin :: rest =>
      let name := Entry.name coin in
      let symbol := Entry.symbol coin in
      let coin_id := Entry.id coin in
      let price_data := default ∅ (prices !! coin_id) in
      if (size price_data =? 0)%nat
      then process clock prices (S k) rest results
      else
        match price_data !! "usd" with
        | None => process clock prices (S k) rest results
        | Some price =>
            call db_coin <-
              (λ db, match crud.get_coin_by_name db name with
                     | Some db_coin => ret db_coin db
                     | None =>
                         crud.create_coin (CoinCreate.mk name symbol) db
                     end) in
            call price_entry <- crud.add_price (clock k) db_coin price in
            process clock prices (S k) rest
              (results ++ [mk_quote name symbol
                             (PriceHistory.price price_entry)
                             (PriceHistory.timestamp price_entry)])
        end
  end.

Definition update_prices (clock : nat → datetime) (response : Response.t)
  : session update_result :=
  λ db,
    let body : session update_result :=
      if negb (Response.status_code response =? 200)
      then raise (HTTPException 502
                    ("Failed to fetch from CoinGecko: "
                     +:+ Response.text response))
      else
        call results <- process clock (Response.json response) 0 COINS [] in
        ret (mk_update_result "success" results
                              (Z.of_nat (length results))) in
    match body db with
    | (Raise (HTTPException status_code detail), db') =>
        (Raise (HTTPException status_code detail), db')
    | (Raise e, db') =>
        (Raise (HTTPException 500
                  ("An error occurred while updating prices: " +:+ str e)),
         db')
    | (Return r, db') => (Return r, db')
    end.

Definition get_latest_prices (db : DB) : list crud.latest :=
  crud.get_latest_prices db.

(** [schemas.Token] *)
Record Token := mk_Token { access_token : string; token_type : string }.

(** What [login_for_access_token] answers: the token, or the
    [HTTPException] it raises, which carries headers. *)
Inductive login_outcome :=
  | Granted (token : Token)
  | Denied (status_code : Z) (detail : string)
           (headers : list (string * string)).

Definition login_for_access_token {auth : Auth} {tokens : Tokens}
                                  (username password : string) (db : DB)
  : login_outcome :=
  match crud.authenticate_user db username password with
  | None =>
      Denied 401 "Incorrect username or password"
             [("WWW-Authenticate", "Bearer")]
  | Some user =>
      let access_token_expires := ACCESS_TOKEN_EXPIRE_MINUTES in
      let access_token :=
        create_access_token (User.username user) access_token_expires in
      Granted (mk_Token access_token "bearer")
  end.

(** [get_user_coins] returns [current_user.coins], the collection as it is
    loaded from the store. *)
Definition get_user_coins (current_user : User.t) (db : DB) : list Coin.t :=
  load_coins db (User.id current_user).

Definition get_price_history (coin_name : string) (db : DB)
  : outcome (list PriceHistory.t) :=
  match crud.get_price_history db coin_name with
  | [] => Raise (HTTPException 404 "Coin not found or no price history")
  | history => Return history
  end.

Definition get_user_price_history (coin_name : string)
                                  (current_user : User.t) (db : DB)
  : outcome (list PriceHistory.t) :=
  match crud.get_user_price_history db (User.id current_user) coin_name with
  | [] =>
      Raise (HTTPException 404
               "Coin not found, not tracked by user, or no price history")
  | history => Return history
  end.

End main.

(** ** dashboard.py *)

Module dashboard.

(** The token of [st.session_state], if there is one, as the API takes it:
    [auth.get_current_user] resolves it to a user or rejects it. *)
Inductive bearer :=
  | Accepted (current_user : User.t)
  | Rejected.

(** A reply of the API to a request for a history, as far as the dashboard
    reads it: the status, and the rows of a reply with status 200. *)
Record reply := mk_reply {
  status_code : Z;
  json : list PriceHistory.t
}.

(** An endpoint behind the HTTP layer: a returned value is sent with status
    200, an [HTTPException] with its own status, any other exception with
    status 500. *)
Definition serve (o : outcome (list PriceHistory.t)) : reply :=
  match o with
  | Return rows => mk_reply 200 rows
  | Raise (HTTPException status_code _) => mk_reply status_code []
  | Raise _ => mk_reply 500 []
  end.

(** [GET /prices/{coin_name}] *)
Definition get_prices (coin_name : string) (db : DB) : reply :=
  serve (main.get_price_history coin_name db).

(** [GET /users/prices/{coin_name}] with a bearer token; a token that is
    rejected is answered with 401. *)
Definition get_users_prices (token : bearer) (coin_name : string) (db : DB)
  : reply :=
  match token with
  | Rejected => mk_reply 401 []
  | Accepted current_user =>
      serve (main.get_user_price_history coin_name current_user db)
  end.

(** [get_price_history]: the rows it returns and the message it shows with
    [st.error], if it shows one.  [token] is the token of the session state,
    [None] when there is none. *)
Definition get_price_history (token : option bearer) (coin_name : string)
                             (db : DB)
  : list PriceHistory.t * option string :=
  let response :=
    match token with
    | Some token =>
        let response := get_users_prices token coin_name db in
        if negb (status_code response =? 200)
        then get_prices coin_name db
        else response
    | None => get_prices coin_name db
    end in
  if status_code response =? 200
  then (json response, None)
  else ([], Some ("Failed to fetch price history for " +:+ coin_name)).

End dashboard.


(** ** Orders and invariants used in the statements *)

(** [newer_first p q]: [p] may come before [q] in a history. *)
Definition newer_first (p q : PriceHistory.t) : Prop :=
  PriceHistory.timestamp q ≤ PriceHistory.timestamp p.

(** The price in usd that the body of a feed response holds for an entry of
    the catalog, if it holds one. *)
Definition quoted (prices : gmap string (gmap string price_t))
                  (coin : Entry.t) : option price_t :=
  prices !! Entry.id coin ≫= (λ price_data, price_data !! "usd").


(** The primary key of [coins]. *)
Definition coin_keys_ok (db : DB) : Prop := NoDup (Coin.id <$> coins db).



(** An entry of the data of [update_prices] mirrors an observation of the
    ledger: the same price and time, and the name of a stored coin whose key
    the observation carries. *)
Definition mirrors (db : DB) (r : main.quote) (p : PriceHistory.t) : Prop :=
  main.quote_price r = PriceHistory.price p
  ∧ main.quote_timestamp r = PriceHistory.timestamp p
  ∧ ∃ c, c ∈ coins db
         ∧ Coin.id c = PriceHistory.coin_id p
         ∧ Coin.name c = main.quote_name r.

(** ** Sample data *)

(** A stand-in for [auth.py], to run the code on concrete stores. *)
Definition toy_auth : Auth := {|
  get_password_hash := λ password, "hashed:" +:+ password;
  verify_password := λ password hashed,
    String.eqb ("hashed:" +:+ password) hashed
|}.

(** A stand-in for the token side of [auth.py]. *)
Definition toy_tokens : Tokens := {|
  ACCESS_TOKEN_EXPIRE_MINUTES := 30;
  create_access_token := λ subject minutes, "token for " +:+ subject
|}.

Definition usd (z : Z) : price_t := QArith_base.Qmake z 1.

Definition alice : User.t :=
  User.mk 1 "alice" "alice@example.com" "hashed:secret" 100.

Definition bitcoin : Coin.t := Coin.mk 1 "Bitcoin" "btc".
Definition ethereum : Coin.t := Coin.mk 2 "Ethereum" "eth".

(** One user, two coins, nothing tracked, no observation. *)
Definition sample_db : DB := mkDB [alice] [bitcoin; ethereum] [] [].

(** The same store with one observation of Bitcoin. *)
Definition priced_db : DB :=
  mkDB [alice] [bitcoin; ethereum]
       [PriceHistory.mk 1 1 (usd 50000) None None None 200] [].

(** The same store with Bitcoin on the watchlist of alice. *)
Definition tracking_db : DB :=
  mkDB [alice] [bitcoin; ethereum] [] [user_coins.mk 1 1].

(** A feed body that quotes Bitcoin only. *)
Definition bitcoin_only : gmap string (gmap string price_t) :=
  {[ "bitcoin" := {[ "usd" := usd 50000 ]} ]}.

(** Three observations of Bitcoin, stored at the times 10, 20 and 30. *)
Definition ledger_db : DB :=
  (crud.add_price 30 bitcoin (usd 3)
     (crud.add_price 20 bitcoin (usd 2)
        (crud.add_price 10 bitcoin (usd 1) sample_db).2).2).2.
(** * Properties *)

(** ** Queries *)

Section queries.
Context {A : Type}.
Implicit Types (P : A → bool) (l : list A).

Lemma first_Some P l x : first P l = Some x → x ∈ l ∧ P x = true.
Proof.
  unfold first. intros H. apply find_some in H as [Hin HP].
  split; [by apply list_elem_of_In | done].
Qed.

Lemma first_None P l : first P l = None → ∀ x, x ∈ l → P x = false.
Proof.
  unfold first. intros H x Hx. eapply find_none; [done|].
  by apply list_elem_of_In.
Qed.

Lemma first_is_Some P l x : x ∈ l → P x = true → is_Some (first P l).
Proof.
  intros Hx HP. destruct (first P l) eqn:E; [by eexists|].
  by rewrite (first_None _ _ E x Hx) in HP.
Qed.

Lemma first_existsb P l : first P l = None → existsb P l = false.
Proof.
  unfold first. induction l as [|y l IH]; simpl; [done|].
  destruct (P y); [done | exact IH].
Qed.

Lemma first_app_Some P l l' x : first P l = Some x → first P (l ++ l') = Some x.
Proof.
  unfold first. induction l as [|y l IH]; simpl; [done|].
  destruct (P y); [done | exact IH].
Qed.

Lemma first_app_None P l l' : first P l = None → first P (l ++ l') = first P l'.
Proof.
  unfold first. induction l as [|y l IH]; simpl; [done|].
  destruct (P y); [done | exact IH].
Qed.

Lemma filter_all P l : (∀ x, x ∈ l → P x = true) → List.filter P l = l.
Proof.
  induction l as [|y l IH]; simpl; intros H; [done|].
  rewrite (H y) by left. f_equal. apply IH. intros x Hx. apply H. by right.
Qed.

End queries.

(** ** Keys assigned by the engine *)

Lemma next_id_above (ids : list Z) (i : Z) : i ∈ ids → i < next_id ids.
Proof.
  unfold next_id. induction ids as [|j ids IH]; simpl.
  - by intros ?%elem_of_nil.
  - intros [->|Hin]%elem_of_cons; [lia|]. specialize (IH Hin). lia.
Qed.

Lemma next_id_fresh (ids : list Z) : next_id ids ∉ ids.
Proof. intros H%next_id_above. lia. Qed.

(** ** Registration *)

Lemma username_taken db username u :
  u ∈ users db → User.username u = username →
  is_Some (crud.get_user_by_username db username).
Proof.
  intros Hu Hn. unfold crud.get_user_by_username.
  apply (first_is_Some _ _ u Hu). by apply String.eqb_eq.
Qed.

Lemma email_taken db email u :
  u ∈ users db → User.email u = email →
  is_Some (crud.get_user_by_email db email).
Proof.
  intros Hu Hn. unfold crud.get_user_by_email.
  apply (first_is_Some _ _ u Hu). by apply String.eqb_eq.
Qed.

Lemma username_free db username :
  (∀ u, u ∈ users db → User.username u ≠ username) →
  crud.get_user_by_username db username = None.
Proof.
  intros H. destruct (crud.get_user_by_username db username) as [u|] eqn:E;
    [|done].
  apply first_Some in E as [Hu Hn]. apply String.eqb_eq in Hn.
  by destruct (H u Hu).
Qed.

Lemma email_free db email :
  (∀ u, u ∈ users db → User.email u ≠ email) →
  crud.get_user_by_email db email = None.
Proof.
  intros H. destruct (crud.get_user_by_email db email) as [u|] eqn:E; [|done].
  apply first_Some in E as [Hu Hn]. apply String.eqb_eq in Hn.
  by destruct (H u Hu).
Qed.

(** When both lookups of [register_user] come back empty, [create_user]
    passes the unique constraints and stores the user. *)
Lemma register_user_fresh {auth : Auth} now user db :
  crud.get_user_by_username db (UserCreate.username user) = None →
  crud.get_user_by_email db (UserCreate.email user) = None →
  let u := User.mk (next_id (User.id <$> users db))
                   (UserCreate.username user) (UserCreate.email user)
                   (get_password_hash (UserCreate.password user)) now in
  main.register_user now user db
  = (Return u, mkDB (users db ++ [u]) (coins db) (price_history db) (watch db)).
Proof.
  intros Hn He. unfold main.register_user. rewrite Hn, He.
  unfold crud.create_user, insert_user.
  unfold crud.get_user_by_username in Hn. unfold crud.get_user_by_email in He.
  by rewrite (first_existsb _ _ Hn), (first_existsb _ _ He).
Qed.

Lemma register_user_duplicate {auth : Auth} now user db :
  is_Some (crud.get_user_by_username db (UserCreate.username user))
  ∨ is_Some (crud.get_user_by_email db (UserCreate.email user)) →
  ∃ detail,
    main.register_user now user db = (Raise (HTTPException 400 detail), db).
Proof.
  unfold main.register_user.
  destruct (crud.get_user_by_username db _) as [u|]; [by eexists|].
  intros [[? [=]]|[u' ->]]. by eexists.
Qed.

(** C6. Registration fails with a 400 error and leaves the store alone when
    the username or the email belongs to a stored user.  Otherwise it stores
    one new user carrying the requested name and email, the hash of the
    password, the current time and a key that no stored user has; a second
    registration under the same username then fails with a 400 error. *)
Theorem register_user_spec {auth : Auth} (now : datetime) (user : UserCreate.t)
                           (db : DB) :
  ((∃ u, u ∈ users db
         ∧ (User.username u = UserCreate.username user
            ∨ User.email u = UserCreate.email user)) →
   ∃ detail,
     main.register_user now user db = (Raise (HTTPException 400 detail), db))
  ∧ ((∀ u, u ∈ users db →
           User.username u ≠ UserCreate.username user
           ∧ User.email u ≠ UserCreate.email user) →
     ∃ u db',
       main.register_user now user db = (Return u, db')
       ∧ users db' = users db ++ [u]
       ∧ coins db' = coins db
       ∧ price_history db' = price_history db
       ∧ watch db' = watch db
       ∧ User.username u = UserCreate.username user
       ∧ User.email u = UserCreate.email user
       ∧ User.hashed_password u = get_password_hash (UserCreate.password user)
       ∧ User.created_at u = now
       ∧ (∀ u', u' ∈ users db → User.id u' ≠ User.id u)
       ∧ ∀ now' user',
           UserCreate.username user' = UserCreate.username user →
           ∃ detail,
             main.register_user now' user' db'
             = (Raise (HTTPException 400 detail), db')).
Proof.
  split.
  - intros (u & Hu & [Hn|He]); apply register_user_duplicate.
    + left. by eapply username_taken.
    + right. by eapply email_taken.
  - intros Hfree.
    assert (crud.get_user_by_username db (UserCreate.username user) = None)
      as Hn by (apply username_free; intros u Hu; apply (Hfree u Hu)).
    assert (crud.get_user_by_email db (UserCreate.email user) = None)
      as He by (apply email_free; intros u Hu; apply (Hfree u Hu)).
    eexists _, _. split; [apply (register_user_fresh now user db Hn He)|].
    simpl. repeat split; try done.
    + intros u' Hu' Heq.
      apply (next_id_fresh (User.id <$> users db)). rewrite <- Heq.
      by apply list_elem_of_fmap_2.
    + intros now' user' Hsame. apply register_user_duplicate. left.
      eapply username_taken; [apply elem_of_app; right; by left|].
      by rewrite Hsame.
Qed.

Lemma register_user_spec_witness :
  (∃ detail,
     main.register_user (auth:=toy_auth) 300
       (UserCreate.mk "alice" "other@example.com" "pw") sample_db
     = (Raise (HTTPException 400 detail), sample_db))
  ∧ (∃ u db',
       main.register_user (auth:=toy_auth) 300
         (UserCreate.mk "bob" "bob@example.com" "pw") sample_db
       = (Return u, db')
       ∧ users db' = [alice; u]
       ∧ User.hashed_password u = "hashed:pw").
Proof.
  split.
  - apply (proj1 (register_user_spec (auth:=toy_auth) 300
                    (UserCreate.mk "alice" "other@example.com" "pw")
                    sample_db)).
    exists alice. split; [by left | by left].
  - destruct (proj2 (register_user_spec (auth:=toy_auth) 300
                       (UserCreate.mk "bob" "bob@example.com" "pw")
                       sample_db))
      as (u & db' & Hrun & Husers & _ & _ & _ & _ & _ & Hhash & _).
    + intros u' ->%list_elem_of_singleton. by split.
    + exists u, db'. by repeat split.
Defined.

(** C10. When the username and the email both belong to stored users, the
    error is the one about the username, whose lookup comes first. *)
Theorem register_user_username_first {auth : Auth} (now : datetime)
                                     (user : UserCreate.t) (db : DB) :
  (∃ u, u ∈ users db ∧ User.username u = UserCreate.username user) →
  (∃ u, u ∈ users db ∧ User.email u = UserCreate.email user) →
  main.register_user now user db
  = (Raise (HTTPException 400 "Username already registered"), db).
Proof.
  intros (u & Hu & Hn) _. unfold main.register_user.
  by destruct (username_taken db _ u Hu Hn) as [? ->].
Qed.

Lemma register_user_username_first_witness :
  main.register_user (auth:=toy_auth) 300
    (UserCreate.mk "alice" "alice@example.com" "pw") sample_db
  = (Raise (HTTPException 400 "Username already registered"), sample_db).
Proof.
  apply (register_user_username_first (auth:=toy_auth)).
  - exists alice. split; [by left | reflexivity].
  - exists alice. split; [by left | reflexivity].
Defined.

(** ** Authentication *)

(** C7. [authenticate_user] returns the user stored under the username when
    the password verifies against the stored hash.  When no user has the
    username and when the password does not verify, it returns one and the
    same value, [False]. *)
Theorem authenticate_user_spec {auth : Auth} (db : DB)
                               (username password : string) :
  (∀ user,
     crud.get_user_by_username db username = Some user →
     verify_password password (User.hashed_password user) = true →
     crud.authenticate_user db username password = Some user
     ∧ user ∈ users db ∧ User.username user = username)
  ∧ ((∀ u, u ∈ users db → User.username u ≠ username) →
     crud.authenticate_user db username password = None)
  ∧ (∀ user,
       crud.get_user_by_username db username = Some user →
       verify_password password (User.hashed_password user) = false →
       crud.authenticate_user db username password = None).
Proof.
  unfold crud.authenticate_user. repeat split.
  - by rewrite H, H0.
  - by apply first_Some in H as [? _].
  - apply first_Some in H as [_ ?]. by apply String.eqb_eq.
  - intros Hfree. by rewrite (username_free db username Hfree).
  - intros user -> ->. done.
Qed.

Lemma authenticate_user_spec_witness :
  crud.authenticate_user (auth:=toy_auth) sample_db "alice" "secret"
  = Some alice
  ∧ crud.authenticate_user (auth:=toy_auth) sample_db "mallory" "secret"
    = None
  ∧ crud.authenticate_user (auth:=toy_auth) sample_db "alice" "guess" = None.
Proof.
  destruct (authenticate_user_spec (auth:=toy_auth) sample_db "alice" "secret")
    as (Hok & _ & _).
  destruct (authenticate_user_spec (auth:=toy_auth) sample_db "mallory"
              "secret") as (_ & Hunknown & _).
  destruct (authenticate_user_spec (auth:=toy_auth) sample_db "alice" "guess")
    as (_ & _ & Hwrong).
  split; [|split].
  - apply (Hok alice); reflexivity.
  - apply Hunknown. intros u ->%list_elem_of_singleton. discriminate.
  - apply (Hwrong alice); reflexivity.
Defined.

(** ** The price feed fails *)

(** C3. On any status other than 200, [update_prices] raises the 502 error
    and the store it leaves is the store it found. *)
Theorem update_prices_upstream_failure (clock : nat → datetime)
                                       (response : Response.t) (db : DB) :
  Response.status_code response ≠ 200 →
  main.update_prices clock response db
  = (Raise (HTTPException 502 ("Failed to fetch from CoinGecko: "
                               +:+ Response.text response)), db).
Proof.
  intros Hstatus. unfold main.update_prices.
  by apply Z.eqb_neq in Hstatus as ->.
Qed.

Lemma update_prices_upstream_failure_witness :
  main.update_prices (λ k, Z.of_nat k) (Response.mk 503 "busy" ∅) priced_db
  = (Raise (HTTPException 502 "Failed to fetch from CoinGecko: busy"),
     priced_db).
Proof.
  apply (update_prices_upstream_failure (λ k, Z.of_nat k)
           (Response.mk 503 "busy" ∅) priced_db).
  simpl. lia.
Defined.

(** ** Sorting by timestamp *)

Lemma insert_desc_not_nil p l : insert_desc p l ≠ [].
Proof. destruct l as [|q l]; simpl; [done|]. by case_match. Qed.

Lemma order_by_timestamp_desc_nil l : order_by_timestamp_desc l = [] → l = [].
Proof.
  destruct l as [|p l]; simpl; [done|]. intros H.
  by destruct (insert_desc_not_nil _ _ H).
Qed.

(** ** History scoped to the watchlist *)

Lemma coin_in_load_coins db uid c :
  coin_in c (load_coins db uid) = true →
  user_coins.mk uid (Coin.id c) ∈ watch db.
Proof.
  unfold coin_in. intros (c' & Hc' & Hid)%existsb_exists.
  apply list_elem_of_In in Hc'. unfold load_coins in Hc'.
  apply list_elem_of_omap in Hc' as (row & Hrow & Hjoin).
  destruct (user_coins.user_id row =? uid) eqn:Huid; [|done].
  apply first_Some in Hjoin as [_ Hcid].
  apply Z.eqb_eq in Huid, Hcid, Hid.
  destruct row as [u k]; simpl in *. subst. by rewrite <- Hid.
Qed.

(** C5. The history of a coin for a user is the 404 error, with one and the
    same detail, when no coin has the name, when the coin is not on the
    watchlist of the user, and when the coin has no observation.  The
    observations that the coin may have play no part in the first two
    cases. *)
Theorem get_user_price_history_not_found (coin_name : string)
                                         (current_user : User.t) (db : DB) :
  crud.get_coin_by_name db coin_name = None
  ∨ (∃ coin, crud.get_coin_by_name db coin_name = Some coin
             ∧ user_coins.mk (User.id current_user) (Coin.id coin) ∉ watch db)
  ∨ (∃ coin, crud.get_coin_by_name db coin_name = Some coin
             ∧ prices_of db (Coin.id coin) = []) →
  main.get_user_price_history coin_name current_user db
  = Raise (HTTPException 404
             "Coin not found, not tracked by user, or no price history").
Proof.
  intros Hcase. unfold main.get_user_price_history.
  assert (crud.get_user_price_history db (User.id current_user) coin_name = [])
    as ->; [|done].
  unfold crud.get_user_price_history.
  destruct (first _ (users db)) as [user|] eqn:Huser; [|done].
  apply first_Some in Huser as [_ Huid%Z.eqb_eq]. rewrite Huid.
  destruct Hcase as [->|[(coin & -> & Hout)|(coin & -> & Hnone)]]; [done| |].
  - destruct (coin_in coin _) eqn:Hin; [|done].
    by apply coin_in_load_coins in Hin.
  - rewrite Hnone. by destruct (coin_in coin _).
Qed.

(** Bitcoin has an observation that anyone can read, yet alice, who does not
    track it, gets the answer of an unknown coin. *)
Lemma get_user_price_history_not_found_witness :
  main.get_user_price_history "Bitcoin" alice priced_db
  = Raise (HTTPException 404
             "Coin not found, not tracked by user, or no price history")
  ∧ main.get_user_price_history "Nocoin" alice priced_db
    = main.get_user_price_history "Bitcoin" alice priced_db
  ∧ main.get_price_history "Bitcoin" priced_db
    = Return [PriceHistory.mk 1 1 (usd 50000) None None None 200].
Proof.
  assert (main.get_user_price_history "Bitcoin" alice priced_db
          = Raise (HTTPException 404
               "Coin not found, not tracked by user, or no price history"))
    as Huntracked.
  { apply (get_user_price_history_not_found "Bitcoin" alice priced_db).
    right; left. exists bitcoin. split; [reflexivity|].
    simpl. apply not_elem_of_nil. }
  split; [exact Huntracked|]. split; [|reflexivity].
  rewrite Huntracked.
  apply (get_user_price_history_not_found "Nocoin" alice priced_db).
  left. reflexivity.
Defined.

(** ** The watchlist *)

Lemma find_user db (current_user : User.t) :
  (∃ u, u ∈ users db ∧ User.id u = User.id current_user) →
  ∃ user, first (λ u, User.id u =? User.id current_user) (users db) = Some user
          ∧ User.id user = User.id current_user.
Proof.
  intros (u & Hu & Hid).
  destruct (first_is_Some (λ u, User.id u =? User.id current_user)
              (users db) u Hu) as [user Huser]; [by apply Z.eqb_eq|].
  exists user. split; [done|].
  apply first_Some in Huser as [_ ?]. by apply Z.eqb_eq.
Qed.

Lemma find_coin db (coin_id : Z) :
  (∃ c, c ∈ coins db ∧ Coin.id c = coin_id) →
  ∃ coin, first (λ c, Coin.id c =? coin_id) (coins db) = Some coin
          ∧ Coin.id coin = coin_id.
Proof.
  intros (c & Hc & Hid).
  destruct (first_is_Some (λ c, Coin.id c =? coin_id) (coins db) c Hc)
    as [coin Hcoin]; [by apply Z.eqb_eq|].
  exists coin. split; [done|].
  apply first_Some in Hcoin as [_ ?]. by apply Z.eqb_eq.
Qed.

Lemma count_occ_snoc (rows : list user_coins.t) (row : user_coins.t) :
  count_occ user_coins.eq_dec (rows ++ [row]) row
  = S (count_occ user_coins.eq_dec rows row).
Proof.
  rewrite count_occ_app. simpl.
  destruct (user_coins.eq_dec row row); [lia | done].
Qed.

(** C1, as the code has it.  For a stored user and a stored coin, adding the
    coin answers with success and raises nothing, whether the pair has a row
    or not, and the association table grows by one row of the pair: an add of
    a pair that has its row leaves two rows. *)
Theorem add_coin_to_user_appends (coin_id : Z) (current_user : User.t)
                                 (db : DB) :
  (∃ u, u ∈ users db ∧ User.id u = User.id current_user) →
  (∃ c, c ∈ coins db ∧ Coin.id c = coin_id) →
  let pair := user_coins.mk (User.id current_user) coin_id in
  ∃ db',
    main.add_coin_to_user coin_id current_user db
    = (Return (main.mk_message "success" "Coin added to user's tracking list"),
       db')
    ∧ watch db' = watch db ++ [pair]
    ∧ count_occ user_coins.eq_dec (watch db') pair
      = S (count_occ user_coins.eq_dec (watch db) pair)
    ∧ users db' = users db
    ∧ coins db' = coins db
    ∧ price_history db' = price_history db.
Proof.
  intros Huser Hcoin pair.
  destruct (find_user db current_user Huser) as (user & Hu & Huid).
  destruct (find_coin db coin_id Hcoin) as (coin & Hc & Hcid).
  eexists. split.
  - unfold main.add_coin_to_user, bind, crud.add_coin_to_user.
    rewrite Hu, Hc, Huid, Hcid. reflexivity.
  - simpl. fold pair. by rewrite count_occ_snoc.
Qed.

Lemma add_coin_to_user_appends_witness :
  main.add_coin_to_user 1 alice sample_db
  = (Return (main.mk_message "success" "Coin added to user's tracking list"),
     tracking_db).
Proof.
  destruct (add_coin_to_user_appends 1 alice sample_db)
    as (db' & Hrun & Hwatch & _ & Husers & Hcoins & Hprices).
  - exists alice. split; [by left | reflexivity].
  - exists bitcoin. split; [by left | reflexivity].
  - rewrite Hrun. f_equal. destruct db'. simpl in *. by subst.
Defined.

(** Bitcoin is on the watchlist of alice, once.  After one more add the
    table has the row twice. *)
Lemma add_coin_to_user_duplicates :
  count_occ user_coins.eq_dec (watch tracking_db) (user_coins.mk 1 1) = 1%nat
  ∧ main.add_coin_to_user 1 alice tracking_db
    = (Return (main.mk_message "success" "Coin added to user's tracking list"),
       mkDB [alice] [bitcoin; ethereum] []
            [user_coins.mk 1 1; user_coins.mk 1 1])
  ∧ count_occ user_coins.eq_dec
              (watch (main.add_coin_to_user 1 alice tracking_db).2)
              (user_coins.mk 1 1)
    ≠ 1%nat.
Proof. split; [reflexivity|]. split; [reflexivity|]. by vm_compute. Qed.

(** A reference to a coin that is not stored is answered with 404, on add and
    on remove. *)
Lemma add_coin_to_user_unknown (coin_id : Z) (current_user : User.t) (db : DB) :
  (∀ c, c ∈ coins db → Coin.id c ≠ coin_id) →
  main.add_coin_to_user coin_id current_user db
  = (Raise (HTTPException 404 "Coin not found"), db).
Proof.
  intros Hfree. unfold main.add_coin_to_user, bind, crud.add_coin_to_user.
  destruct (first _ (coins db)) as [c|] eqn:Hc.
  - apply first_Some in Hc as [Hin Hid%Z.eqb_eq]. by destruct (Hfree c Hin).
  - by destruct (first _ (users db)).
Qed.

Lemma remove_coin_from_user_unknown (coin_id : Z) (current_user : User.t)
                                    (db : DB) :
  (∀ c, c ∈ coins db → Coin.id c ≠ coin_id) →
  main.remove_coin_from_user coin_id current_user db
  = (Raise (HTTPException 404
              "Coin not found or not in user's tracking list"), db).
Proof.
  intros Hfree.
  unfold main.remove_coin_from_user, bind, crud.remove_coin_from_user.
  destruct (first _ (coins db)) as [c|] eqn:Hc.
  - apply first_Some in Hc as [Hin Hid%Z.eqb_eq]. by destruct (Hfree c Hin).
  - by destruct (first _ (users db)).
Qed.

(** So is a removal on behalf of a user that is not stored. *)
Lemma remove_coin_from_user_unknown_user (coin_id : Z) (current_user : User.t)
                                         (db : DB) :
  (∀ u, u ∈ users db → User.id u ≠ User.id current_user) →
  main.remove_coin_from_user coin_id current_user db
  = (Raise (HTTPException 404
              "Coin not found or not in user's tracking list"), db).
Proof.
  intros Hfree.
  unfold main.remove_coin_from_user, bind, crud.remove_coin_from_user.
  destruct (first _ (users db)) as [u|] eqn:Hu; [|done].
  apply first_Some in Hu as [Hin Hid%Z.eqb_eq]. by destruct (Hfree u Hin).
Qed.

Lemma list_index_absent c l : coin_in c l = false → list_index c l = None.
Proof.
  induction l as [|c' l IH]; simpl; [done|].
  destruct (Coin.id c' =? Coin.id c); [done|]. simpl.
  intros H. by rewrite (IH H).
Qed.

(** The removal of a stored coin that a stored user does not track gets as
    far as [user.coins.remove(coin)], which raises [ValueError]: the check
    that turns [None] into 404 is never reached. *)
Lemma remove_coin_from_user_untracked (coin_id : Z) (current_user : User.t)
                                      (db : DB) :
  (∃ u, u ∈ users db ∧ User.id u = User.id current_user) →
  (∃ c, c ∈ coins db ∧ Coin.id c = coin_id) →
  user_coins.mk (User.id current_user) coin_id ∉ watch db →
  main.remove_coin_from_user coin_id current_user db
  = (Raise (ValueError "list.remove(x): x not in list"), db).
Proof.
  intros Huser Hcoin Hout.
  destruct (find_user db current_user Huser) as (user & Hu & Huid).
  destruct (find_coin db coin_id Hcoin) as (coin & Hc & Hcid).
  unfold main.remove_coin_from_user, bind, crud.remove_coin_from_user.
  rewrite Hu, Hc, Huid, list_index_absent; [done|].
  destruct (coin_in coin _) eqn:Hin; [|done].
  apply coin_in_load_coins in Hin. by rewrite Hcid in Hin.
Qed.

(** C2. Alice and Bitcoin are stored and Bitcoin was never on the watchlist
    of alice: the removal does not answer with the 404 error, it ends in an
    unhandled [ValueError]. *)
Theorem remove_coin_from_user_never_tracked :
  main.remove_coin_from_user 1 alice sample_db
  = (Raise (ValueError "list.remove(x): x not in list"), sample_db)
  ∧ main.remove_coin_from_user 1 alice sample_db
    ≠ (Raise (HTTPException 404
                "Coin not found or not in user's tracking list"), sample_db).
Proof. split; [reflexivity | discriminate]. Qed.

(** ** The ledger, newest first *)

Lemma insert_desc_perm p l : insert_desc p l ≡ₚ p :: l.
Proof.
  induction l as [|q l IH]; simpl; [done|].
  case_match; [done|]. rewrite IH. apply Permutation_swap.
Qed.

Lemma order_by_timestamp_desc_perm l : order_by_timestamp_desc l ≡ₚ l.
Proof.
  induction l as [|p l IH]; simpl; [done|].
  by rewrite insert_desc_perm, IH.
Qed.

Lemma insert_desc_sorted p l :
  StronglySorted newer_first l → StronglySorted newer_first (insert_desc p l).
Proof.
  induction 1 as [|q l Hl IH Hq]; simpl.
  - repeat constructor.
  - destruct (Z.leb_spec (PriceHistory.timestamp q) (PriceHistory.timestamp p))
      as [Hle|Hlt].
    + constructor; [by constructor|]. constructor; [done|].
      eapply Forall_impl; [exact Hq|]. unfold newer_first. intros x Hx. lia.
    + constructor; [done|]. apply Forall_forall. intros x Hx.
      rewrite insert_desc_perm in Hx.
      apply elem_of_cons in Hx as [->|Hx].
      * unfold newer_first. lia.
      * by eapply Forall_forall in Hq.
Qed.

Lemma order_by_timestamp_desc_sorted l :
  StronglySorted newer_first (order_by_timestamp_desc l).
Proof.
  induction l as [|p l IH]; simpl; [constructor|].
  by apply insert_desc_sorted.
Qed.




(** C9. [get_latest_prices] has one entry for each stored coin that has an
    observation, in the order of the coins, and none for a coin without.  The
    entry of a coin is built from one observation of that coin, the one that
    [latest_of] picks, and no observation of the coin has a greater
    timestamp. *)
Theorem get_latest_prices_greatest (db : DB) :
  crud.get_latest_prices db
  = omap (λ coin,
            (λ p, crud.mk_latest (Coin.name coin) (Coin.symbol coin)
                                 (PriceHistory.price p)
                                 (PriceHistory.timestamp p))
            <$> crud.latest_of db coin)
         (coins db)
  ∧ ∀ coin,
      (prices_of db (Coin.id coin) = [] → crud.latest_of db coin = None)
      ∧ (prices_of db (Coin.id coin) ≠ [] →
         ∃ p, crud.latest_of db coin = Some p
              ∧ p ∈ prices_of db (Coin.id coin)
              ∧ ∀ q, q ∈ prices_of db (Coin.id coin) →
                     PriceHistory.timestamp q ≤ PriceHistory.timestamp p).
Proof.
  split.
  - unfold crud.get_latest_prices. f_equal.
  - intros coin. unfold crud.latest_of. split; [by intros ->|].
    intros Hsome.
    pose proof (order_by_timestamp_desc_perm (prices_of db (Coin.id coin)))
      as Hperm.
    pose proof (order_by_timestamp_desc_sorted (prices_of db (Coin.id coin)))
      as Hsorted.
    destruct (order_by_timestamp_desc (prices_of db (Coin.id coin)))
      as [|p rest] eqn:Hsort.
    { by apply order_by_timestamp_desc_nil in Hsort. }
    exists p. split; [done|]. split.
    + rewrite <- Hperm. by left.
    + intros q Hq. rewrite <- Hperm in Hq.
      apply elem_of_cons in Hq as [->|Hq]; [lia|].
      apply StronglySorted_inv in Hsorted as [_ Hall].
      by eapply Forall_forall in Hall.
Qed.

Lemma get_latest_prices_greatest_witness :
  crud.get_latest_prices ledger_db = [crud.mk_latest "Bitcoin" "btc" (usd 3) 30]
  ∧ ∃ p, crud.latest_of ledger_db bitcoin = Some p
         ∧ ∀ q, q ∈ prices_of ledger_db 1 →
                PriceHistory.timestamp q ≤ PriceHistory.timestamp p.
Proof.
  destruct (get_latest_prices_greatest ledger_db) as [Hall Hpick].
  split; [rewrite Hall; reflexivity|].
  destruct (proj2 (Hpick bitcoin)) as (p & Hp & _ & Hmax); [discriminate|].
  exists p. split; [exact Hp | exact Hmax].
Defined.

(** ** The price sync job *)

Lemma NoDup_fmap_eq {A B} (f : A → B) (l : list A) (x y : A) :
  NoDup (f <$> l) → x ∈ l → y ∈ l → f x = f y → x = y.
Proof.
  induction l as [|z l IH]; intros Hnd Hx Hy Hf; [by apply elem_of_nil in Hx|].
  rewrite fmap_cons in Hnd. apply NoDup_cons in Hnd as [Hout Hnd].
  apply elem_of_cons in Hx as [->|Hx]; apply elem_of_cons in Hy as [->|Hy].
  - done.
  - destruct Hout. rewrite Hf. by apply list_elem_of_fmap_2.
  - destruct Hout. rewrite <- Hf. by apply list_elem_of_fmap_2.
  - by apply IH.
Qed.


Lemma price_data_usd (prices : gmap string (gmap string price_t)) coin :
  default ∅ (prices !! Entry.id coin) !! "usd" = quoted prices coin.
Proof.
  unfold quoted. destruct (prices !! Entry.id coin); simpl; [done|].
  apply lookup_empty.
Qed.

(** An entry that the feed does not quote is passed over. *)
Lemma process_skip clock prices k coin rest results db :
  quoted prices coin = None →
  main.process clock prices k (coin :: rest) results db
  = main.process clock prices (S k) rest results db.
Proof. intros Hq. simpl. rewrite price_data_usd, Hq. by case_match. Qed.

Lemma quoted_not_empty (prices : gmap string (gmap string price_t)) coin price :
  quoted prices coin = Some price →
  (size (default ∅ (prices !! Entry.id coin)) =? 0)%nat = false.
Proof.
  intros Hq. apply Nat.eqb_neq. intros Hsize%map_size_empty_iff.
  by rewrite <- price_data_usd, Hsize, lookup_empty in Hq.
Qed.

(** A quoted entry whose name the store knows: one observation is appended
    under the stored coin. *)
Lemma process_known clock prices k coin rest results db price c :
  quoted prices coin = Some price →
  crud.get_coin_by_name db (Entry.name coin) = Some c →
  main.process clock prices k (coin :: rest) results db
  = main.process clock prices (S k) rest
      (results ++ [main.mk_quote (Entry.name coin) (Entry.symbol coin)
                                 price (clock k)])
      (mkDB (users db) (coins db)
            (price_history db
             ++ [PriceHistory.mk (next_id (PriceHistory.id <$> price_history db))
                                 (Coin.id c) price None None None (clock k)])
            (watch db)).
Proof.
  intros Hq Hc. simpl.
  rewrite (quoted_not_empty _ _ _ Hq), price_data_usd, Hq.
  unfold bind. by rewrite Hc.
Qed.












(** The same run, evaluated. *)
Example update_prices_bitcoin_only :
  main.update_prices (λ k, Z.of_nat k) (Response.mk 200 "" bitcoin_only)
                     sample_db
  = (Return (main.mk_update_result "success"
               [main.mk_quote "Bitcoin" "btc" (usd 50000) 0] 1),
     mkDB [alice] [bitcoin; ethereum]
          [PriceHistory.mk 1 1 (usd 50000) None None None 0] []).
Proof. by vm_compute. Qed.

(** A store that does not agree with the catalog: the symbol of Bitcoin is
    taken by a coin of another name, the insert of Bitcoin fails on the
    unique symbol and the handler turns the failure into the 500 error. *)
Example update_prices_symbol_taken :
  ∃ detail,
    main.update_prices (λ k, Z.of_nat k) (Response.mk 200 "" bitcoin_only)
                       (mkDB [] [Coin.mk 1 "Bitcoin Cash" "btc"] [] [])
    = (Raise (HTTPException 500 detail),
       mkDB [] [Coin.mk 1 "Bitcoin Cash" "btc"] [] []).
Proof. eexists. by vm_compute. Qed.

(** * Further properties of the code *)

(** ** Removal from the watchlist *)

Lemma load_coins_member db uid c :
  user_coins.mk uid (Coin.id c) ∈ watch db → c ∈ coins db →
  coin_in c (load_coins db uid) = true.
Proof.
  intros Hrow Hc.
  destruct (first_is_Some (λ c', Coin.id c' =? Coin.id c) (coins db) c Hc)
    as [c' Hc']; [apply Z.eqb_refl|].
  pose proof (first_Some _ _ _ Hc') as [_ Hid].
  unfold coin_in. apply existsb_exists. exists c'. split; [|done].
  apply list_elem_of_In. unfold load_coins. apply list_elem_of_omap.
  exists (user_coins.mk uid (Coin.id c)). split; [done|].
  simpl. by rewrite Z.eqb_refl.
Qed.

Lemma list_index_present c l : coin_in c l = true → is_Some (list_index c l).
Proof.
  induction l as [|c' l IH]; simpl; [done|].
  destruct (Coin.id c' =? Coin.id c); [by eexists|]. simpl.
  intros H. destruct (IH H) as [i ->]. by eexists.
Qed.

Lemma row_eqb_eq (row row' : user_coins.t) :
  (user_coins.user_id row' =? user_coins.user_id row)
  && (user_coins.coin_id row' =? user_coins.coin_id row) = true
  ↔ row' = row.
Proof.
  rewrite andb_true_iff, !Z.eqb_eq. destruct row, row'; simpl.
  split; [by intros [-> ->] | by intros [= -> ->]].
Qed.

Lemma count_occ_delete_row_same row rows :
  count_occ user_coins.eq_dec (delete_row row rows) row
  = pred (count_occ user_coins.eq_dec rows row).
Proof.
  induction rows as [|row' rows IH]; simpl; [done|].
  destruct ((user_coins.user_id row' =? user_coins.user_id row)
            && (user_coins.coin_id row' =? user_coins.coin_id row)) eqn:Heq.
  - apply row_eqb_eq in Heq as ->.
    by destruct (user_coins.eq_dec row row).
  - assert (row' ≠ row) as Hne by (intros ?%row_eqb_eq; congruence).
    simpl. by destruct (user_coins.eq_dec row' row).
Qed.

Lemma count_occ_delete_row_other row other rows :
  other ≠ row →
  count_occ user_coins.eq_dec (delete_row row rows) other
  = count_occ user_coins.eq_dec rows other.
Proof.
  intros Hother. induction rows as [|row' rows IH]; simpl; [done|].
  destruct ((user_coins.user_id row' =? user_coins.user_id row)
            && (user_coins.coin_id row' =? user_coins.coin_id row)) eqn:Heq.
  - apply row_eqb_eq in Heq as ->.
    by destruct (user_coins.eq_dec row other) as [->|].
  - simpl. rewrite IH. done.
Qed.

Lemma delete_row_snoc row rows :
  row ∉ rows → delete_row row (rows ++ [row]) = rows.
Proof.
  induction rows as [|row' rows IH]; simpl; intros Hout.
  - by rewrite !Z.eqb_refl.
  - apply not_elem_of_cons in Hout as [Hne Hout].
    destruct ((user_coins.user_id row' =? user_coins.user_id row)
              && (user_coins.coin_id row' =? user_coins.coin_id row)) eqn:Heq.
    + apply row_eqb_eq in Heq. congruence.
    + by rewrite IH.
Qed.

(** X1. For a stored user and a stored coin whose pair has its one row in the
    association table, the removal answers with success and the row is gone.
    The rows of every other pair, the users, the coins and the ledger are as
    they were. *)
Theorem remove_coin_from_user_tracked (coin_id : Z) (current_user : User.t)
                                      (db : DB) :
  (∃ u, u ∈ users db ∧ User.id u = User.id current_user) →
  (∃ c, c ∈ coins db ∧ Coin.id c = coin_id) →
  let pair := user_coins.mk (User.id current_user) coin_id in
  count_occ user_coins.eq_dec (watch db) pair = 1%nat →
  ∃ db',
    main.remove_coin_from_user coin_id current_user db
    = (Return (main.mk_message "success"
                 "Coin removed from user's tracking list"), db')
    ∧ (pair ∉ watch db')
    ∧ (∀ other, other ≠ pair →
                count_occ user_coins.eq_dec (watch db') other
                = count_occ user_coins.eq_dec (watch db) other)
    ∧ users db' = users db
    ∧ coins db' = coins db
    ∧ price_history db' = price_history db.
Proof.
  intros Huser Hcoin pair Hone.
  destruct (find_user db current_user Huser) as (user & Hu & Huid).
  destruct (find_coin db coin_id Hcoin) as (coin & Hc & Hcid).
  assert (pair ∈ watch db) as Hrow.
  { apply list_elem_of_In, (count_occ_In user_coins.eq_dec). lia. }
  pose proof (first_Some _ _ _ Hc) as [Hcin _].
  destruct (list_index_present coin (load_coins db (User.id current_user)))
    as [i Hi].
  { apply load_coins_member; [by rewrite Hcid | done]. }
  eexists. split.
  - unfold main.remove_coin_from_user, bind, crud.remove_coin_from_user.
    rewrite Hu, Hc, Huid, Hi, Hcid. reflexivity.
  - simpl. fold pair. repeat split; try done.
    + intros Hin.
      apply list_elem_of_In, (count_occ_In user_coins.eq_dec) in Hin.
      rewrite count_occ_delete_row_same, Hone in Hin. simpl in Hin. lia.
    + intros other Hne. by apply count_occ_delete_row_other.
Qed.

Lemma remove_coin_from_user_tracked_witness :
  ∃ db',
    main.remove_coin_from_user 1 alice tracking_db
    = (Return (main.mk_message "success"
                 "Coin removed from user's tracking list"), db')
    ∧ user_coins.mk 1 1 ∉ watch db'.
Proof.
  destruct (remove_coin_from_user_tracked 1 alice tracking_db)
    as (db' & Hrun & Hgone & _).
  - exists alice. split; [by left | reflexivity].
  - exists bitcoin. split; [by left | reflexivity].
  - reflexivity.
  - exists db'. split; [exact Hrun | exact Hgone].
Defined.

(** X2. For a stored user and a stored coin that the user does not track, an
    add followed by the removal of the same coin gives back the store as it
    was before the add. *)
Theorem add_then_remove_coin (coin_id : Z) (current_user : User.t) (db : DB) :
  (∃ u, u ∈ users db ∧ User.id u = User.id current_user) →
  (∃ c, c ∈ coins db ∧ Coin.id c = coin_id) →
  user_coins.mk (User.id current_user) coin_id ∉ watch db →
  (call _ <- main.add_coin_to_user coin_id current_user in
   main.remove_coin_from_user coin_id current_user) db
  = (Return (main.mk_message "success"
               "Coin removed from user's tracking list"), db).
Proof.
  intros Huser Hcoin Hout.
  destruct (find_user db current_user Huser) as (user & Hu & Huid).
  destruct (find_coin db coin_id Hcoin) as (coin & Hc & Hcid).
  pose proof (first_Some _ _ _ Hc) as [Hcin _].
  unfold bind at 1.
  unfold main.add_coin_to_user, bind, crud.add_coin_to_user.
  rewrite Hu, Hc, Huid, Hcid. unfold ret.
  unfold main.remove_coin_from_user, bind, crud.remove_coin_from_user.
  simpl. rewrite Hu, Hc, Huid, Hcid.
  match goal with
  | |- context [list_index coin ?l] =>
      destruct (list_index_present coin l) as [i ->]
  end.
  { apply load_coins_member; [|done]. simpl. rewrite Hcid.
    apply elem_of_app. right. by left. }
  rewrite delete_row_snoc by done. by destruct db.
Qed.

Lemma add_then_remove_coin_witness :
  (call _ <- main.add_coin_to_user 2 alice in
   main.remove_coin_from_user 2 alice) tracking_db
  = (Return (main.mk_message "success"
               "Coin removed from user's tracking list"), tracking_db).
Proof.
  apply (add_then_remove_coin 2 alice tracking_db).
  - exists alice. split; [by left | reflexivity].
  - exists ethereum. split; [right; by left | reflexivity].
  - intros Hin%list_elem_of_singleton. discriminate.
Defined.

(** ** One watchlist does not touch another *)

Lemma load_coins_own db uid :
  load_coins db uid
  = omap (λ row : user_coins.t,
            first (λ c, Coin.id c =? user_coins.coin_id row) (coins db))
         (omap (λ row : user_coins.t,
                  if user_coins.user_id row =? uid then Some row else None)
               (watch db)).
Proof.
  unfold load_coins, omap. induction (watch db) as [|row rows IH]; [done|].
  simpl. destruct (user_coins.user_id row =? uid); simpl; by rewrite IH.
Qed.

Lemma load_coins_watch db db' uid :
  coins db' = coins db →
  omap (λ row : user_coins.t,
          if user_coins.user_id row =? uid then Some row else None) (watch db')
  = omap (λ row : user_coins.t,
            if user_coins.user_id row =? uid then Some row else None) (watch db)
  →
  load_coins db' uid = load_coins db uid.
Proof. intros Hcoins Hrows. by rewrite !load_coins_own, Hcoins, Hrows. Qed.

Lemma own_rows_delete_row uid row rows :
  user_coins.user_id row ≠ uid →
  omap (λ row : user_coins.t,
          if user_coins.user_id row =? uid then Some row else None)
       (delete_row row rows)
  = omap (λ row : user_coins.t,
            if user_coins.user_id row =? uid then Some row else None) rows.
Proof.
  intros Hne. unfold omap.
  induction rows as [|row' rows IH]; simpl; [done|].
  destruct ((user_coins.user_id row' =? user_coins.user_id row)
            && (user_coins.coin_id row' =? user_coins.coin_id row)) eqn:Heq.
  - apply row_eqb_eq in Heq as ->.
    by apply Z.eqb_neq in Hne as ->.
  - simpl. by rewrite IH.
Qed.

(** X3. However an add or a removal of a coin for one user ends, the coins
    tracked by every other user are the same after it as before it. *)
Theorem other_watchlists_untouched (coin_id : Z) (current_user other : User.t)
                                   (db : DB) :
  User.id other ≠ User.id current_user →
  main.get_user_coins other (main.add_coin_to_user coin_id current_user db).2
  = main.get_user_coins other db
  ∧ main.get_user_coins other
      (main.remove_coin_from_user coin_id current_user db).2
    = main.get_user_coins other db.
Proof.
  intros Hother. unfold main.get_user_coins. split.
  - unfold main.add_coin_to_user, bind, crud.add_coin_to_user.
    destruct (first _ (users db)) as [user|] eqn:Hu; [|done].
    destruct (first _ (coins db)) as [coin|]; [|done].
    apply first_Some in Hu as [_ Huid%Z.eqb_eq].
    simpl. apply load_coins_watch; [done|]. simpl.
    rewrite omap_app. simpl. rewrite Huid.
    apply Z.eqb_neq in Hother. rewrite Z.eqb_sym, Hother.
    by rewrite app_nil_r.
  - unfold main.remove_coin_from_user, bind, crud.remove_coin_from_user.
    destruct (first _ (users db)) as [user|] eqn:Hu; [|done].
    destruct (first _ (coins db)) as [coin|]; [|done].
    apply first_Some in Hu as [_ Huid%Z.eqb_eq].
    destruct (list_index coin _); [|done].
    simpl. apply load_coins_watch; [done|]. simpl.
    apply own_rows_delete_row. simpl. congruence.
Qed.

Lemma other_watchlists_untouched_witness :
  main.get_user_coins (User.mk 2 "bob" "bob@example.com" "h" 0)
    (main.add_coin_to_user 2 alice tracking_db).2
  = main.get_user_coins (User.mk 2 "bob" "bob@example.com" "h" 0) tracking_db.
Proof.
  apply (other_watchlists_untouched 2 alice
           (User.mk 2 "bob" "bob@example.com" "h" 0) tracking_db).
  simpl. lia.
Defined.

(** ** Histories *)

(** X4. For a stored user who tracks a coin, the scoped history of the coin
    is the list of the public history; when the coin has an observation, both
    endpoints answer with that list. *)
Theorem get_user_price_history_tracked (coin_name : string)
                                       (current_user : User.t) (coin : Coin.t)
                                       (db : DB) :
  (∃ u, u ∈ users db ∧ User.id u = User.id current_user) →
  crud.get_coin_by_name db coin_name = Some coin →
  user_coins.mk (User.id current_user) (Coin.id coin) ∈ watch db →
  crud.get_user_price_history db (User.id current_user) coin_name
  = crud.get_price_history db coin_name
  ∧ (prices_of db (Coin.id coin) ≠ [] →
     main.get_user_price_history coin_name current_user db
     = Return (crud.get_price_history db coin_name)
     ∧ main.get_price_history coin_name db
       = Return (crud.get_price_history db coin_name)).
Proof.
  intros Huser Hcoin Hrow.
  destruct (find_user db current_user Huser) as (user & Hu & Huid).
  pose proof (first_Some _ _ _ Hcoin) as [Hcin _].
  assert (crud.get_user_price_history db (User.id current_user) coin_name
          = crud.get_price_history db coin_name) as Hsame.
  { unfold crud.get_user_price_history, crud.get_price_history.
    rewrite Hu, Hcoin, Huid.
    by rewrite (load_coins_member db _ coin Hrow Hcin). }
  split; [done|]. intros Hsome.
  unfold main.get_user_price_history, main.get_price_history.
  rewrite Hsame. unfold crud.get_price_history. rewrite Hcoin.
  destruct (order_by_timestamp_desc _) eqn:Hsort; [|done].
  by apply order_by_timestamp_desc_nil in Hsort.
Qed.

Lemma get_user_price_history_tracked_witness :
  main.get_user_price_history "Bitcoin" alice
    (mkDB [alice] [bitcoin; ethereum]
          [PriceHistory.mk 1 1 (usd 50000) None None None 200]
          [user_coins.mk 1 1])
  = Return [PriceHistory.mk 1 1 (usd 50000) None None None 200].
Proof.
  destruct (get_user_price_history_tracked "Bitcoin" alice bitcoin
              (mkDB [alice] [bitcoin; ethereum]
                    [PriceHistory.mk 1 1 (usd 50000) None None None 200]
                    [user_coins.mk 1 1])) as [_ Hrows].
  - exists alice. split; [by left | reflexivity].
  - reflexivity.
  - by left.
  - destruct Hrows as [Hscoped _]; [discriminate|]. exact Hscoped.
Defined.

(** X5. When the scoped history answers with rows, the user is stored, the
    name is the name of a stored coin, the pair of the user and that coin has
    a row in the association table, every row of the answer is an observation
    of that coin, and the public history answers with the same rows. *)
Theorem get_user_price_history_scoped (coin_name : string)
                                      (current_user : User.t) (db : DB)
                                      (history : list PriceHistory.t) :
  main.get_user_price_history coin_name current_user db = Return history →
  (∃ u, u ∈ users db ∧ User.id u = User.id current_user)
  ∧ ∃ coin,
      crud.get_coin_by_name db coin_name = Some coin
      ∧ user_coins.mk (User.id current_user) (Coin.id coin) ∈ watch db
      ∧ (∀ p, p ∈ history → PriceHistory.coin_id p = Coin.id coin)
      ∧ main.get_price_history coin_name db = Return history.
Proof.
  unfold main.get_user_price_history, main.get_price_history.
  unfold crud.get_user_price_history, crud.get_price_history.
  destruct (first _ (users db)) as [user|] eqn:Hu; [|done].
  apply first_Some in Hu as [Hin Huid%Z.eqb_eq]. rewrite Huid.
  destruct (crud.get_coin_by_name db coin_name) as [coin|]; [|done].
  destruct (coin_in coin _) eqn:Htracked; [|done]. simpl.
  intros Hrun. split; [by exists user|]. exists coin.
  split; [done|]. split; [by apply coin_in_load_coins|].
  destruct (order_by_timestamp_desc _) as [|p rows] eqn:Hsort; [done|].
  injection Hrun as <-. split; [|done].
  intros q Hq. rewrite <- Hsort, order_by_timestamp_desc_perm in Hq.
  unfold prices_of in Hq. apply list_elem_of_In, filter_In in Hq as [_ Hq].
  by apply Z.eqb_eq.
Qed.

Lemma get_user_price_history_scoped_witness :
  ∃ coin,
    crud.get_coin_by_name
      (mkDB [alice] [bitcoin; ethereum]
            [PriceHistory.mk 1 1 (usd 50000) None None None 200]
            [user_coins.mk 1 1]) "Bitcoin" = Some coin
    ∧ user_coins.mk 1 (Coin.id coin) ∈ [user_coins.mk 1 1].
Proof.
  destruct (get_user_price_history_scoped "Bitcoin" alice
              (mkDB [alice] [bitcoin; ethereum]
                    [PriceHistory.mk 1 1 (usd 50000) None None None 200]
                    [user_coins.mk 1 1])
              [PriceHistory.mk 1 1 (usd 50000) None None None 200])
    as (_ & coin & Hcoin & Hrow & _); [reflexivity|].
  exists coin. split; [exact Hcoin | exact Hrow].
Defined.

(** X6. The public history answers with the 404 error exactly when no stored
    coin has the name or the coin of that name has no observation. *)
Theorem get_price_history_not_found (coin_name : string) (db : DB) :
  main.get_price_history coin_name db
  = Raise (HTTPException 404 "Coin not found or no price history")
  ↔ crud.get_coin_by_name db coin_name = None
    ∨ ∃ coin, crud.get_coin_by_name db coin_name = Some coin
              ∧ prices_of db (Coin.id coin) = [].
Proof.
  unfold main.get_price_history, crud.get_price_history.
  destruct (crud.get_coin_by_name db coin_name) as [coin|]; [|by split; auto].
  destruct (order_by_timestamp_desc _) as [|p rows] eqn:Hsort.
  - apply order_by_timestamp_desc_nil in Hsort.
    split; [|done]. intros _. right. by exists coin.
  - split; [done|]. intros [[=]|(coin' & [= <-] & Hnone)].
    by rewrite Hnone in Hsort.
Qed.

Lemma get_price_history_not_found_witness :
  main.get_price_history "Ethereum" priced_db
  = Raise (HTTPException 404 "Coin not found or no price history").
Proof.
  apply (proj2 (get_price_history_not_found "Ethereum" priced_db)).
  right. exists ethereum. split; reflexivity.
Defined.

(** ** The ledger *)




(** ** What a sync leaves alone *)

(** Whatever the loop meets, users and watchlists stay as they are and the
    tables of coins and observations only grow at the end. *)
Lemma process_grows clock prices todo :
  ∀ k results db,
    let db' := (main.process clock prices k todo results db).2 in
    users db' = users db
    ∧ watch db' = watch db
    ∧ coins db `prefix_of` coins db'
    ∧ price_history db `prefix_of` price_history db'.
Proof.
  induction todo as [|coin rest IH]; intros k results db; [done|].
  destruct (quoted prices coin) as [price|] eqn:Hq.
  2: { rewrite process_skip by done. apply IH. }
  destruct (crud.get_coin_by_name db (Entry.name coin)) as [c|] eqn:Hname.
  - rewrite (process_known _ _ _ _ _ _ _ price c Hq Hname).
    match goal with
    | |- context [main.process _ _ _ _ _ ?d] =>
        destruct (IH (S k)
                    (results ++ [main.mk_quote (Entry.name coin)
                                   (Entry.symbol coin) price (clock k)]) d)
          as (Hu & Hw & Hc & Hp)
    end.
    simpl in *. repeat split; try done.
    etrans; [|exact Hp]. by apply prefix_app_r.
  - simpl. rewrite (quoted_not_empty _ _ _ Hq), price_data_usd, Hq.
    unfold bind. rewrite Hname.
    unfold crud.create_coin, insert_coin. simpl.
    destruct (existsb _ (coins db)); [done|].
    destruct (existsb _ (coins db)); [done|].
    simpl.
    match goal with
    | |- context [main.process _ _ _ _ _ ?d] =>
        destruct (IH (S k)
                    (results ++ [main.mk_quote (Entry.name coin)
                                   (Entry.symbol coin) price (clock k)]) d)
          as (Hu & Hw & Hc & Hp)
    end.
    simpl in *. repeat split; try done.
    + etrans; [|exact Hc]. by apply prefix_app_r.
    + etrans; [|exact Hp]. by apply prefix_app_r.
Qed.

(** X8. Whatever the feed answers and however [update_prices] ends, with a
    result, with the 502 error or with the 500 error in the middle of the
    catalog, the users and the watchlists are as before, and every coin and
    every observation that was stored is still there, in its place: the two
    tables only grow at the end. *)
Theorem update_prices_append_only (clock : nat → datetime)
                                  (response : Response.t) (db : DB) :
  let db' := (main.update_prices clock response db).2 in
  users db' = users db
  ∧ watch db' = watch db
  ∧ coins db `prefix_of` coins db'
  ∧ price_history db `prefix_of` price_history db'.
Proof.
  unfold main.update_prices.
  destruct (negb (Response.status_code response =? 200)); [done|].
  cbv beta iota zeta. unfold bind, ret.
  pose proof (process_grows clock (Response.json response) main.COINS
                0%nat [] db) as Hgrows.
  destruct (main.process clock (Response.json response) 0 main.COINS [] db)
    as [[results|e] db']; [done|].
  by destruct e.
Qed.

(** ** A feed that quotes nothing *)

Lemma process_unquoted clock prices todo :
  ∀ k results db,
    (∀ coin, coin ∈ todo → quoted prices coin = None) →
    main.process clock prices k todo results db = (Return results, db).
Proof.
  induction todo as [|coin rest IH]; intros k results db Hnone; [done|].
  rewrite process_skip by (apply Hnone; by left).
  apply IH. intros coin' Hin. apply Hnone. by right.
Qed.

(** X9. When the body of a 200 response quotes no entry of the catalog, be it
    empty, about other identifiers or without usd fields, [update_prices]
    answers with success, an empty list and the count 0, and the store is the
    store it found, whatever that store holds. *)
Theorem update_prices_nothing_quoted (clock : nat → datetime)
                                     (response : Response.t) (db : DB) :
  Response.status_code response = 200 →
  (∀ coin, coin ∈ main.COINS → quoted (Response.json response) coin = None) →
  main.update_prices clock response db
  = (Return (main.mk_update_result "success" [] 0), db).
Proof.
  intros Hstatus Hnone. unfold main.update_prices. rewrite Hstatus.
  change (negb (200 =? 200)) with false. cbv beta iota zeta.
  unfold bind, ret. by rewrite process_unquoted.
Qed.

Lemma update_prices_nothing_quoted_witness :
  main.update_prices (λ k, Z.of_nat k)
    (Response.mk 200 "{}" {[ "monero" := {[ "usd" := usd 150 ]};
                            "bitcoin" := {[ "eur" := usd 45000 ]} ]})
    (mkDB [] [Coin.mk 1 "Bitcoin Cash" "btc"] [] [])
  = (Return (main.mk_update_result "success" [] 0),
     mkDB [] [Coin.mk 1 "Bitcoin Cash" "btc"] [] []).
Proof.
  apply update_prices_nothing_quoted; [reflexivity|].
  intros coin Hin.
  assert (Forall (λ coin,
                    quoted {[ "monero" := {[ "usd" := usd 150 ]};
                              "bitcoin" := {[ "eur" := usd 45000 ]} ]} coin
                    = None) main.COINS) as Hall.
  { repeat constructor. }
  by eapply Forall_forall in Hall.
Defined.

(** ** One sync after another *)






(** ** The latest prices after a sync *)






(** ** Registration and login *)

Lemma get_user_by_username_new db u :
  crud.get_user_by_username db (User.username u) = None →
  crud.get_user_by_username
    (mkDB (users db ++ [u]) (coins db) (price_history db) (watch db))
    (User.username u)
  = Some u.
Proof.
  unfold crud.get_user_by_username. intros Hnone. simpl.
  rewrite (first_app_None _ _ _ Hnone). simpl. by rewrite String.eqb_refl.
Qed.

(** X12. A registration under a free username and a free email can be
    followed by a login: when the password verifies against its own hash,
    the login with the registered username and password is granted a bearer
    token signed for that username with the configured lifetime, and a
    password that does not verify against the hash is answered with the 401
    error. *)
Theorem register_then_login {auth : Auth} {tokens : Tokens} (now : datetime)
                            (user : UserCreate.t) (db : DB) :
  (∀ u, u ∈ users db →
        User.username u ≠ UserCreate.username user
        ∧ User.email u ≠ UserCreate.email user) →
  verify_password (UserCreate.password user)
                  (get_password_hash (UserCreate.password user)) = true →
  let db' := (main.register_user now user db).2 in
  main.login_for_access_token (UserCreate.username user)
                              (UserCreate.password user) db'
  = main.Granted
      (main.mk_Token (create_access_token (UserCreate.username user)
                                          ACCESS_TOKEN_EXPIRE_MINUTES)
                     "bearer")
  ∧ ∀ password,
      verify_password password (get_password_hash (UserCreate.password user))
      = false →
      main.login_for_access_token (UserCreate.username user) password db'
      = main.Denied 401 "Incorrect username or password"
                    [("WWW-Authenticate", "Bearer")].
Proof.
  intros Hfree Hverify db'.
  assert (crud.get_user_by_username db (UserCreate.username user) = None)
    as Hn by (apply username_free; intros u Hu; apply (Hfree u Hu)).
  assert (crud.get_user_by_email db (UserCreate.email user) = None)
    as He by (apply email_free; intros u Hu; apply (Hfree u Hu)).
  unfold db'. rewrite (register_user_fresh now user db Hn He). simpl.
  unfold main.login_for_access_token, crud.authenticate_user.
  set (u := User.mk (next_id (User.id <$> users db))
                    (UserCreate.username user) (UserCreate.email user)
                    (get_password_hash (UserCreate.password user)) now).
  pose proof (get_user_by_username_new db u Hn) as Hfound.
  simpl in Hfound. rewrite Hfound. simpl.
  split; [by rewrite Hverify|]. by intros password ->.
Qed.

Lemma register_then_login_witness :
  main.login_for_access_token (auth:=toy_auth) (tokens:=toy_tokens)
    "bob" "pw"
    (main.register_user (auth:=toy_auth) 300
       (UserCreate.mk "bob" "bob@example.com" "pw") sample_db).2
  = main.Granted (main.mk_Token "token for bob" "bearer").
Proof.
  apply (register_then_login (auth:=toy_auth) (tokens:=toy_tokens) 300
           (UserCreate.mk "bob" "bob@example.com" "pw") sample_db).
  - intros u ->%list_elem_of_singleton. by split.
  - reflexivity.
Defined.

Lemma register_user_users {auth : Auth} now user db :
  (main.register_user now user db).2 = db
  ∨ (crud.get_user_by_username db (UserCreate.username user) = None
     ∧ crud.get_user_by_email db (UserCreate.email user) = None
     ∧ ∃ u, (main.register_user now user db).2
            = mkDB (users db ++ [u]) (coins db) (price_history db) (watch db)
            ∧ User.id u = next_id (User.id <$> users db)
            ∧ User.username u = UserCreate.username user
            ∧ User.email u = UserCreate.email user).
Proof.
  destruct (crud.get_user_by_username db (UserCreate.username user))
    as [u|] eqn:Hn.
  { left. unfold main.register_user. by rewrite Hn. }
  destruct (crud.get_user_by_email db (UserCreate.email user)) as [u|] eqn:He.
  { left. unfold main.register_user. by rewrite Hn, He. }
  right. do 2 (split; [done|]).
  rewrite (register_user_fresh now user db Hn He). by eexists.
Qed.

Lemma not_in_fmap_first {A} (f : A → string) (l : list A) (s : string) :
  first (λ x, String.eqb (f x) s) l = None → s ∉ f <$> l.
Proof.
  intros Hnone (x & -> & Hx)%list_elem_of_fmap.
  pose proof (first_None _ _ Hnone x Hx) as Hne. simpl in Hne.
  by rewrite String.eqb_refl in Hne.
Qed.

(** X13. However a registration ends, it keeps the three keys of the table
    of users: if no two stored users shared a username, an email or an
    identifier before it, none do after it. *)
Theorem register_user_keeps_keys {auth : Auth} (now : datetime)
                                 (user : UserCreate.t) (db : DB) :
  let db' := (main.register_user now user db).2 in
  (NoDup (User.username <$> users db) → NoDup (User.username <$> users db'))
  ∧ (NoDup (User.email <$> users db) → NoDup (User.email <$> users db'))
  ∧ (NoDup (User.id <$> users db) → NoDup (User.id <$> users db')).
Proof.
  intros db'. unfold db'.
  destruct (register_user_users now user db)
    as [->|(Hn & He & u & -> & Hid & Hname & Hemail)]; [done|].
  simpl. rewrite !fmap_app. simpl.
  repeat split; intros Hnd; apply NoDup_app; (split; [done|]);
    (split; [|apply NoDup_singleton]); intros x Hx ->%list_elem_of_singleton.
  - rewrite Hname in Hx. by apply not_in_fmap_first in Hn.
  - rewrite Hemail in Hx. by apply not_in_fmap_first in He.
  - rewrite Hid in Hx. by apply next_id_fresh in Hx.
Qed.

Lemma register_user_keeps_keys_witness :
  NoDup (User.username
           <$> users (main.register_user (auth:=toy_auth) 300
                        (UserCreate.mk "bob" "alice@example.com" "pw")
                        sample_db).2).
Proof.
  apply (register_user_keeps_keys (auth:=toy_auth) 300
           (UserCreate.mk "bob" "alice@example.com" "pw") sample_db).
  apply (bool_decide_unpack _). by vm_compute.
Defined.

(** X14. However a registration ends, the authentication of a username that
    was stored before it answers as it did before it, for every password: a
    registration never replaces or shadows a stored account. *)
Theorem register_user_keeps_accounts {auth : Auth} (now : datetime)
                                     (user : UserCreate.t) (db : DB)
                                     (username password : string) :
  (∃ u, u ∈ users db ∧ User.username u = username) →
  crud.authenticate_user (main.register_user now user db).2 username password
  = crud.authenticate_user db username password.
Proof.
  intros (u & Hu & Hname).
  destruct (register_user_users now user db)
    as [->|(_ & _ & u' & -> & _)]; [done|].
  unfold crud.authenticate_user.
  destruct (username_taken db username u Hu Hname) as [v Hv].
  rewrite Hv. unfold crud.get_user_by_username in *. simpl.
  by rewrite (first_app_Some _ _ _ _ Hv).
Qed.

Lemma register_user_keeps_accounts_witness :
  crud.authenticate_user (auth:=toy_auth)
    (main.register_user (auth:=toy_auth) 300
       (UserCreate.mk "bob" "bob@example.com" "pw") sample_db).2
    "alice" "secret"
  = crud.authenticate_user (auth:=toy_auth) sample_db "alice" "secret".
Proof.
  apply (register_user_keeps_accounts (auth:=toy_auth)).
  exists alice. split; [by left | reflexivity].
Defined.

(** ** The catalog of coins *)

(** X15. [create_coin] under a name and a symbol that no stored coin has
    stores one coin with that name and symbol under a key that no stored
    coin has; the lookup by that name then finds it and the lookup by any
    other name answers as before.  Under a name or a symbol that a stored
    coin has, it raises an integrity error and stores nothing. *)
Theorem create_coin_lookup (coin : CoinCreate.t) (db : DB) :
  ((∀ c, c ∈ coins db →
         Coin.name c ≠ CoinCreate.name coin
         ∧ Coin.symbol c ≠ CoinCreate.symbol coin) →
   ∃ c db',
     crud.create_coin coin db = (Return c, db')
     ∧ Coin.name c = CoinCreate.name coin
     ∧ Coin.symbol c = CoinCreate.symbol coin
     ∧ (∀ c', c' ∈ coins db → Coin.id c' ≠ Coin.id c)
     ∧ coins db' = coins db ++ [c]
     ∧ crud.get_coin_by_name db' (CoinCreate.name coin) = Some c
     ∧ ∀ name, name ≠ CoinCreate.name coin →
               crud.get_coin_by_name db' name = crud.get_coin_by_name db name)
  ∧ ((∃ c, c ∈ coins db
           ∧ (Coin.name c = CoinCreate.name coin
              ∨ Coin.symbol c = CoinCreate.symbol coin)) →
     ∃ msg, crud.create_coin coin db = (Raise (IntegrityError msg), db)).
Proof.
  unfold crud.create_coin, insert_coin. split.
  - intros Hfree.
    assert (existsb (λ c, String.eqb (Coin.name c) (CoinCreate.name coin))
                    (coins db) = false) as Hname.
    { apply not_true_is_false. intros (c & Hc & Heq)%existsb_exists.
      apply list_elem_of_In in Hc. apply String.eqb_eq in Heq.
      by destruct (Hfree c Hc). }
    assert (existsb (λ c, String.eqb (Coin.symbol c) (CoinCreate.symbol coin))
                    (coins db) = false) as Hsymbol.
    { apply not_true_is_false. intros (c & Hc & Heq)%existsb_exists.
      apply list_elem_of_In in Hc. apply String.eqb_eq in Heq.
      by destruct (Hfree c Hc). }
    rewrite Hname, Hsymbol. eexists _, _. split; [reflexivity|]. simpl.
    do 2 (split; [done|]). split; [|split; [done|split]].
    + intros c' Hc' Heq.
      apply (next_id_fresh (Coin.id <$> coins db)). rewrite <- Heq.
      by apply list_elem_of_fmap_2.
    + unfold crud.get_coin_by_name. simpl.
      assert (first (λ c, String.eqb (Coin.name c) (CoinCreate.name coin))
                    (coins db) = None) as Hnone.
      { destruct (first _ (coins db)) as [c|] eqn:Hc; [|done].
        apply first_Some in Hc as [Hc Heq%String.eqb_eq].
        by destruct (Hfree c Hc). }
      rewrite (first_app_None _ _ _ Hnone). simpl.
      by rewrite String.eqb_refl.
    + intros name Hne. unfold crud.get_coin_by_name. simpl.
      destruct (first _ (coins db)) as [c|] eqn:Hc.
      * by apply first_app_Some.
      * rewrite (first_app_None _ _ _ Hc). simpl.
        apply String.eqb_neq in Hne. by rewrite String.eqb_sym, Hne.
  - intros (c & Hc & Hsame).
    destruct (existsb (λ c, String.eqb (Coin.name c) (CoinCreate.name coin))
                      (coins db)) eqn:Hname; [by eexists|].
    assert (existsb (λ c, String.eqb (Coin.symbol c) (CoinCreate.symbol coin))
                    (coins db) = true) as ->; [|by eexists].
    apply existsb_exists. exists c. split; [by apply list_elem_of_In|].
    destruct Hsame as [Heq|Heq]; [|by apply String.eqb_eq].
    assert (String.eqb (Coin.name c) (CoinCreate.name coin) = false) as Hne.
    { apply not_true_is_false. intros Htrue.
      apply not_true_iff_false in Hname. apply Hname.
      apply existsb_exists. exists c. split; [by apply list_elem_of_In|done]. }
    apply String.eqb_neq in Hne. done.
Qed.

Lemma create_coin_lookup_witness :
  (∃ c db',
     crud.create_coin (CoinCreate.mk "Cardano" "ada") sample_db
     = (Return c, db')
     ∧ crud.get_coin_by_name db' "Cardano" = Some c)
  ∧ ∃ msg,
      crud.create_coin (CoinCreate.mk "Bitcoin Cash" "btc") sample_db
      = (Raise (IntegrityError msg), sample_db).
Proof.
  split.
  - destruct (proj1 (create_coin_lookup (CoinCreate.mk "Cardano" "ada")
                       sample_db))
      as (c & db' & Hrun & _ & _ & _ & _ & Hfound & _).
    + intros c Hc. simpl in Hc.
      apply elem_of_cons in Hc as [->|Hc]; [by split|].
      apply list_elem_of_singleton in Hc as ->. by split.
    + exists c, db'. split; [exact Hrun | exact Hfound].
  - apply (proj2 (create_coin_lookup (CoinCreate.mk "Bitcoin Cash" "btc")
                    sample_db)).
    exists bitcoin. split; [by left | by right].
Defined.

(** ** The coins of a user *)

(** X16. [get_user_coins] answers with the empty list for a user that is not
    stored.  For a stored user, in a store whose coins have distinct keys, a
    coin is in the answer exactly when it is a stored coin and the pair of
    the user and the coin has a row in the association table; the endpoint
    answers with the same list. *)
Theorem get_user_coins_members (user_id : Z) (db : DB) :
  ((∀ u, u ∈ users db → User.id u ≠ user_id) →
   crud.get_user_coins db user_id = [])
  ∧ ((∃ u, u ∈ users db ∧ User.id u = user_id) →
     coin_keys_ok db →
     (∀ current_user, User.id current_user = user_id →
                      main.get_user_coins current_user db
                      = crud.get_user_coins db user_id)
     ∧ ∀ c, c ∈ crud.get_user_coins db user_id
            ↔ c ∈ coins db ∧ user_coins.mk user_id (Coin.id c) ∈ watch db).
Proof.
  unfold crud.get_user_coins. split.
  - intros Hfree. destruct (first _ (users db)) as [u|] eqn:Hu; [|done].
    apply first_Some in Hu as [Hin Hid%Z.eqb_eq]. by destruct (Hfree u Hin).
  - intros (u & Hu & Hid) Hkeys.
    destruct (first_is_Some (λ u, User.id u =? user_id) (users db) u Hu)
      as [user Huser]; [by apply Z.eqb_eq|].
    rewrite Huser. apply first_Some in Huser as [_ Huid%Z.eqb_eq].
    rewrite Huid. split.
    { intros current_user Hcur. unfold main.get_user_coins. by rewrite Hcur. }
    intros c. unfold load_coins. rewrite list_elem_of_omap. split.
    + intros (row & Hrow & Hjoin).
      destruct (user_coins.user_id row =? user_id) eqn:Hown; [|done].
      apply first_Some in Hjoin as [Hc Hcid%Z.eqb_eq].
      apply Z.eqb_eq in Hown. split; [done|].
      destruct row as [uid cid]. simpl in *. by subst.
    + intros [Hc Hrow]. exists (user_coins.mk user_id (Coin.id c)).
      split; [done|]. simpl. rewrite Z.eqb_refl.
      destruct (first_is_Some (λ c', Coin.id c' =? Coin.id c) (coins db) c Hc)
        as [c' Hc']; [apply Z.eqb_refl|].
      rewrite Hc'. f_equal.
      apply first_Some in Hc' as [Hcin' Hcid%Z.eqb_eq].
      by apply (NoDup_fmap_eq Coin.id (coins db)).
Qed.

Lemma get_user_coins_members_witness :
  crud.get_user_coins tracking_db 7 = []
  ∧ (bitcoin ∈ crud.get_user_coins tracking_db 1
     ↔ bitcoin ∈ coins tracking_db
       ∧ user_coins.mk 1 (Coin.id bitcoin) ∈ watch tracking_db).
Proof.
  split.
  - apply (proj1 (get_user_coins_members 7 tracking_db)).
    intros u ->%list_elem_of_singleton. discriminate.
  - apply (proj2 (get_user_coins_members 1 tracking_db)).
    + exists alice. split; [by left | reflexivity].
    + apply (bool_decide_unpack _). by vm_compute.
Defined.

(** ** The history that the dashboard shows *)



(** ** From the watchlist to the history *)

(** X18. Once a stored user has added a stored coin, the scoped history of
    the name of that coin is the list of the public history: when the coin
    has an observation, the user gets the rows that anyone gets. *)
Theorem add_coin_then_history (coin_name : string) (current_user : User.t)
                              (coin : Coin.t) (db : DB) :
  (∃ u, u ∈ users db ∧ User.id u = User.id current_user) →
  crud.get_coin_by_name db coin_name = Some coin →
  let db' := (main.add_coin_to_user (Coin.id coin) current_user db).2 in
  crud.get_user_price_history db' (User.id current_user) coin_name
  = crud.get_price_history db coin_name
  ∧ (prices_of db (Coin.id coin) ≠ [] →
     main.get_user_price_history coin_name current_user db'
     = Return (crud.get_price_history db coin_name)).
Proof.
  intros Huser Hcoin db'.
  destruct (find_user db current_user Huser) as (user & Hu & Huid).
  pose proof (first_Some _ _ _ Hcoin) as [Hcin _].
  destruct (find_coin db (Coin.id coin)) as (coin' & Hc' & Hcid');
    [by exists coin|].
  assert (db' = mkDB (users db) (coins db) (price_history db)
                     (watch db ++ [user_coins.mk (User.id current_user)
                                                 (Coin.id coin)])) as Hdb.
  { unfold db', main.add_coin_to_user, bind, crud.add_coin_to_user.
    by rewrite Hu, Hc', Huid, Hcid'. }
  assert (crud.get_user_price_history db' (User.id current_user) coin_name
          = crud.get_price_history db coin_name) as Hsame.
  { rewrite Hdb.
    unfold crud.get_user_price_history, crud.get_price_history.
    simpl. rewrite Hu, Huid.
    assert (crud.get_coin_by_name
              (mkDB (users db) (coins db) (price_history db)
                    (watch db ++ [user_coins.mk (User.id current_user)
                                                (Coin.id coin)]))
              coin_name = Some coin) as -> by done.
    rewrite Hcoin, load_coins_member; [done| |done].
    simpl. apply elem_of_app. right. by left. }
  split; [done|]. intros Hsome.
  unfold main.get_user_price_history. rewrite Hsame.
  unfold crud.get_price_history. rewrite Hcoin.
  destruct (order_by_timestamp_desc _) eqn:Hsort; [|done].
  by apply order_by_timestamp_desc_nil in Hsort.
Qed.

Lemma add_coin_then_history_witness :
  main.get_user_price_history "Bitcoin" alice
    (main.add_coin_to_user 1 alice priced_db).2
  = Return [PriceHistory.mk 1 1 (usd 50000) None None None 200].
Proof.
  destruct (add_coin_then_history "Bitcoin" alice bitcoin priced_db)
    as [_ Hrows].
  - exists alice. split; [by left | reflexivity].
  - reflexivity.
  - apply Hrows. discriminate.
Defined.

(** ** The shape of the latest prices *)

Lemma get_latest_prices_names db :
  crud.latest_name <$> crud.get_latest_prices db
  `sublist_of` Coin.name <$> coins db.
Proof.
  unfold crud.get_latest_prices.
  induction (coins db) as [|c l IH]; [done|].
  rewrite fmap_cons. unfold omap in *. simpl.
  destruct (crud.latest_of db c); simpl.
  - by apply sublist_skip.
  - by apply sublist_cons.
Qed.

(** X19. The latest prices have at most one entry for each stored coin, in
    the order of the coins: their names are a sublist of the names of the
    stored coins, so no two entries share a name when no two stored coins do,
    and a store without observations gives the empty list. *)
Theorem get_latest_prices_shape (db : DB) :
  crud.latest_name <$> main.get_latest_prices db
  `sublist_of` Coin.name <$> coins db
  ∧ (NoDup (Coin.name <$> coins db) →
     NoDup (crud.latest_name <$> main.get_latest_prices db))
  ∧ (price_history db = [] → main.get_latest_prices db = []).
Proof.
  unfold main.get_latest_prices. split; [apply get_latest_prices_names|].
  split.
  - intros Hnd. eapply sublist_NoDup; [exact Hnd|].
    apply get_latest_prices_names.
  - intros Hnone. unfold crud.get_latest_prices, crud.latest_of, prices_of.
    rewrite Hnone. simpl. unfold omap.
    induction (coins db) as [|c l IH]; [done|]. simpl. exact IH.
Qed.

Lemma get_latest_prices_shape_witness :
  NoDup (crud.latest_name <$> main.get_latest_prices ledger_db)
  ∧ main.get_latest_prices sample_db = [].
Proof.
  destruct (get_latest_prices_shape ledger_db) as (_ & Hnd & _).
  destruct (get_latest_prices_shape sample_db) as (_ & _ & Hnone).
  split.
  - apply Hnd. apply (bool_decide_unpack _). by vm_compute.
  - apply Hnone. reflexivity.
Defined.

(** ** What a sync returns *)

Lemma process_mirror clock prices todo :
  ∀ k results db out db',
    main.process clock prices k todo results db = (Return out, db') →
    ∃ rows new,
      out = results ++ rows
      ∧ price_history db' = price_history db ++ new
      ∧ Forall2 (mirrors db') rows new.
Proof.
  induction todo as [|coin rest IH]; intros k results db out db' Hrun.
  { injection Hrun as <- <-. exists [], []. by rewrite !app_nil_r. }
  destruct (quoted prices coin) as [price|] eqn:Hq.
  2: { rewrite process_skip in Hrun by done. by apply IH in Hrun. }
  destruct (crud.get_coin_by_name db (Entry.name coin)) as [c|] eqn:Hname.
  - rewrite (process_known _ _ _ _ _ _ _ price c Hq Hname) in Hrun.
    match type of Hrun with
    | main.process _ _ _ _ ?r ?d = _ =>
        pose proof (process_grows clock prices rest (S k) r d)
          as (_ & _ & Hcoins & _)
    end.
    rewrite Hrun in Hcoins. simpl in Hcoins.
    apply IH in Hrun as (rows & new & -> & Hp & Hmirror). simpl in Hp.
    eexists (_ :: rows), (_ :: new).
    rewrite Hp, <- !app_assoc. split; [done|]. split; [done|].
    constructor; [|done]. repeat split. exists c.
    apply first_Some in Hname as [Hcin Hcname%String.eqb_eq].
    split; [|done]. destruct Hcoins as [more ->].
    apply elem_of_app. by left.
  - simpl in Hrun.
    rewrite (quoted_not_empty _ _ _ Hq), price_data_usd, Hq in Hrun.
    unfold bind in Hrun. rewrite Hname in Hrun.
    unfold crud.create_coin, insert_coin in Hrun. simpl in Hrun.
    destruct (existsb _ (coins db)); [done|].
    destruct (existsb _ (coins db)); [done|].
    simpl in Hrun.
    match type of Hrun with
    | main.process _ _ _ _ ?r ?d = _ =>
        pose proof (process_grows clock prices rest (S k) r d)
          as (_ & _ & Hcoins & _)
    end.
    rewrite Hrun in Hcoins. simpl in Hcoins.
    apply IH in Hrun as (rows & new & -> & Hp & Hmirror). simpl in Hp.
    eexists (_ :: rows), (_ :: new).
    rewrite Hp, <- !app_assoc. split; [done|]. split; [done|].
    constructor; [|done]. repeat split.
    exists (Coin.mk (next_id (Coin.id <$> coins db))
                    (Entry.name coin) (Entry.symbol coin)).
    split; [|done]. destruct Hcoins as [more ->].
    apply elem_of_app. left. apply elem_of_app. right. by left.
Qed.


(** X20. When [update_prices] returns a result, the result mirrors what was
    stored: the status is success, the ledger has grown by one observation
    for each entry of the data, in the same order, each entry gives the price
    and the time of its observation and the name of a stored coin whose key
    the observation carries, and the count is the number of entries. *)
Theorem update_prices_data_mirrors_ledger (clock : nat → datetime)
                                          (response : Response.t)
                                          (db db' : DB)
                                          (result : main.update_result) :
  main.update_prices clock response db = (Return result, db') →
  main.update_status result = "success"
  ∧ main.count result = Z.of_nat (length (main.data result))
  ∧ ∃ new,
      price_history db' = price_history db ++ new
      ∧ Forall2 (mirrors db') (main.data result) new.
Proof.
  unfold main.update_prices.
  destruct (negb (Response.status_code response =? 200)); [done|].
  cbv beta iota zeta. unfold bind, ret.
  destruct (main.process clock (Response.json response) 0 main.COINS [] db)
    as [[results|e] db1] eqn:Hrun; [|by destruct e].
  intros [= <- <-]. simpl. do 2 (split; [done|]).
  apply process_mirror in Hrun as (rows & new & -> & Hp & Hmirror).
  by exists new.
Qed.

Lemma update_prices_data_mirrors_ledger_witness :
  ∃ new,
    price_history (mkDB [alice] [bitcoin; ethereum]
                        [PriceHistory.mk 1 1 (usd 50000) None None None 0] [])
    = price_history sample_db ++ new
    ∧ Forall2 (mirrors (mkDB [alice] [bitcoin; ethereum]
                          [PriceHistory.mk 1 1 (usd 50000) None None None 0]
                          []))
              [main.mk_quote "Bitcoin" "btc" (usd 50000) 0] new.
Proof.
  apply (update_prices_data_mirrors_ledger (λ k, Z.of_nat k)
           (Response.mk 200 "" bitcoin_only) sample_db _
           (main.mk_update_result "success"
              [main.mk_quote "Bitcoin" "btc" (usd 50000) 0] 1)).
  by vm_compute.
Defined.

